(** * loki: command sanitizer, process invocation and assessment tools

    A shallow embedding of the parts of the repository that decide how a
    command string is vetted and run, how the outcome of an external process
    is turned into a result, and how assessment identifiers are derived:

    - [src/main.py]: [_sanitize_command], [execute_bash_command],
      [_execute_devtools_script];
    - [src/tools/generic_cmd.py]: [execute_linux_command];
    - [src/tools/python-tools/analysis.py]: [start_full_assessment],
      [get_assessment_status].

    A Python [str] is a Rocq [string], one [ascii] per character; the text
    functions below follow Python on ASCII text (characters above 127 are
    kept as they are and are never white space).  What the code obtains from
    outside the repository (the child process, the file system, the JSON
    decoder, the home directory) enters as section variables, and the
    object FastMCP passes to a tool as its context as an argument. *)

From Stdlib Require Import String Ascii List ZArith Bool Lia.
From Stdlib Require Import Numbers.DecimalString.
Import ListNotations.
Open Scope string_scope.
Set Warnings "-register-all".

(* ================================================================== *)
(** * Part I: the embedding *)
(* ================================================================== *)

(** ** Python string operations used by the sources *)
Module PyStr.

(** [s.startswith(p)] *)
Fixpoint startswith (s p : string) {struct p} : bool :=
  match p, s with
  | EmptyString, _ => true
  | String _ _, EmptyString => false
  | String b p', String a s' => Ascii.eqb a b && startswith s' p'
  end.

(** [needle in hay] for two strings: some suffix of [hay] starts with
    [needle]. *)
Fixpoint contains (needle hay : string) : bool :=
  startswith hay needle ||
  match hay with
  | EmptyString => false
  | String _ hay' => contains needle hay'
  end.

(** [str.isspace] on one ASCII character: TAB, LF, VT, FF, CR, the four
    separators FS, GS, RS, US, and the space. *)
Definition isspace (c : ascii) : bool :=
  let n := nat_of_ascii c in
  ((9 <=? n) && (n <=? 13) || (28 <=? n) && (n <=? 32))%nat.

Fixpoint lstrip (s : string) : string :=
  match s with
  | EmptyString => EmptyString
  | String c s' => if isspace c then lstrip s' else s
  end.

(** Drops trailing white space: a character is kept when it is not white
    space or when something is kept after it. *)
Fixpoint rstrip (s : string) : string :=
  match s with
  | EmptyString => EmptyString
  | String c s' =>
      match rstrip s' with
      | EmptyString => if isspace c then EmptyString else String c EmptyString
      | r => String c r
      end
  end.

(** [s.strip()] *)
Definition strip (s : string) : string := rstrip (lstrip s).

Definition is_lower (c : ascii) : bool :=
  let n := nat_of_ascii c in ((97 <=? n) && (n <=? 122))%nat.

Definition upper_char (c : ascii) : ascii :=
  if is_lower c then ascii_of_nat (nat_of_ascii c - 32) else c.

(** [s.upper()] *)
Fixpoint upper (s : string) : string :=
  match s with
  | EmptyString => EmptyString
  | String c s' => String (upper_char c) (upper s')
  end.

(** [s.replace(old, new)] for one-character [old] and [new]. *)
Fixpoint replace_char (old new : ascii) (s : string) : string :=
  match s with
  | EmptyString => EmptyString
  | String c s' =>
      String (if Ascii.eqb c old then new else c) (replace_char old new s')
  end.

(** [str(n)] for an [int]. *)
Definition str_of_Z (n : Z) : string := NilZero.string_of_int (Z.to_int n).

(** [s[:n]] *)
Definition take (n : nat) (s : string) : string := substring 0 n s.

(** [any(p(x) for x in l)] *)
Definition any {A : Type} (p : A -> bool) (l : list A) : bool := existsb p l.

End PyStr.

(** ** Exceptions

    The exception classes the modelled code raises or catches, each with the
    text [str(e)] gives.  [TimeoutExpired] also carries what the child
    had written when it was stopped.  [AttributeError] is what the
    evaluation of [obj.name] raises when the object has nothing of that
    name.  [OtherException] stands for any other subclass of
    [Exception]. *)
Inductive exn : Type :=
| ValueError (msg : string)
| ToolError (msg : string)
| TimeoutExpired (msg : string) (output stderr : string)
| FileNotFoundError (msg : string)
| AttributeError (msg : string)
| OtherException (msg : string).

Definition str_of_exn (e : exn) : string :=
  match e with
  | ValueError m | ToolError m | FileNotFoundError m | OtherException m => m
  | AttributeError m => m
  | TimeoutExpired m _ _ => m
  end.

(** A computation that returns a value or raises. *)
Definition result (A : Type) : Type := (exn + A)%type.

(** ** [shlex.split(command)]

    The standard tokenizer as [shlex.split] configures it: POSIX mode,
    [whitespace_split] on, no comment characters, no punctuation characters.
    The reader is the state machine of [shlex.read_token]; every token is
    read starting in the white space state. *)
Module Shlex.

(** [self.state]: white space, inside a word (the state named a), a
    quote character, or the escape character together with
    [escapedstate], the state to come back to. *)
Inductive state : Type :=
| InSpace
| InWord
| InQuote (q : ascii)
| InEscape (escapedstate : state).

(** [self.whitespace]: space, TAB, CR, LF. *)
Definition is_whitespace (c : ascii) : bool :=
  let n := nat_of_ascii c in
  ((n =? 32) || (n =? 9) || (n =? 13) || (n =? 10))%nat.

(** [self.quotes]: the single and the double quote. *)
Definition is_quote (c : ascii) : bool :=
  let n := nat_of_ascii c in ((n =? 39) || (n =? 34))%nat.

(** [self.escape]: the backslash. *)
Definition is_escape (c : ascii) : bool := (nat_of_ascii c =? 92)%nat.

(** [self.escapedquotes]: the double quote. *)
Definition is_escapedquote (c : ascii) : bool := (nat_of_ascii c =? 34)%nat.

Definition backslash : ascii := ascii_of_nat 92.

Definition snoc (token : string) (c : ascii) : string :=
  token ++ String c EmptyString.

(** What [read_token] hands over when the input ends: in POSIX mode an
    empty result that was never quoted is [None], the end of the
    iteration; anything else is the last token. *)
Definition emit (token : string) (quoted : bool) : list string :=
  if quoted || negb (String.eqb token "") then [token] else [].

(** [tokens s st token quoted] reads the rest [s] of the input in state
    [st] with the token built so far and the [quoted] flag of the current
    [read_token] call, and lists all remaining tokens. *)
Fixpoint tokens (s : string) (st : state) (token : string) (quoted : bool)
  : result (list string) :=
  match s with
  | EmptyString =>
      match st with
      | InSpace | InWord => inr (emit token quoted)
      | InQuote _ => inl (ValueError "No closing quotation")
      | InEscape _ => inl (ValueError "No escaped character")
      end
  | String c rest =>
      match st with
      | InSpace =>
          if is_whitespace c then
            if quoted || negb (String.eqb token "") then
              match tokens rest InSpace "" false with
              | inl e => inl e
              | inr l => inr (token :: l)
              end
            else tokens rest InSpace token quoted
          else if is_escape c then tokens rest (InEscape InWord) token quoted
          else if is_quote c then tokens rest (InQuote c) token quoted
          else tokens rest InWord (String c EmptyString) quoted
      | InQuote q =>
          if Ascii.eqb c q then tokens rest InWord token true
          else if is_escape c && is_escapedquote q
               then tokens rest (InEscape (InQuote q)) token true
          else tokens rest (InQuote q) (snoc token c) true
      | InEscape escapedstate =>
          let token' :=
            match escapedstate with
            | InQuote q =>
                if negb (is_escape c) && negb (Ascii.eqb c q)
                then snoc token backslash else token
            | _ => token
            end in
          tokens rest escapedstate (snoc token' c) quoted
      | InWord =>
          if is_whitespace c then
            if quoted || negb (String.eqb token "") then
              match tokens rest InSpace "" false with
              | inl e => inl e
              | inr l => inr (token :: l)
              end
            else tokens rest InSpace token quoted
          else if is_quote c then tokens rest (InQuote c) token quoted
          else if is_escape c then tokens rest (InEscape InWord) token quoted
          else tokens rest InWord (snoc token c) quoted
      end
  end.

Definition split (s : string) : result (list string) :=
  tokens s InSpace "" false.

End Shlex.

(** ** Effects

    What a tool call does besides returning: messages sent through the
    FastMCP context, child processes asked for (a call of
    [asyncio.create_subprocess_shell] or of [subprocess.run]), tasks handed
    to the event loop.  A call is modelled as the list of its events,
    oldest first, together with what it returns or raises. *)
Inductive event : Type :=
| CtxInfo (msg : string)
| CtxWarning (msg : string)
| CtxError (msg : string)
| SpawnShell (command : string)
| SpawnArgv (argv : list string) (cwd : option string) (timeout : Z)
| CreateTask (tool : string) (arguments : list (string * string)).

Definition is_spawn (e : event) : bool :=
  match e with
  | SpawnShell _ | SpawnArgv _ _ _ => true
  | _ => false
  end.

Definition Eff (A : Type) : Type := (list event * result A)%type.

Definition ret {A} (a : A) : Eff A := ([], inr a).
Definition raise {A} (e : exn) : Eff A := ([], inl e).
Definition tell (ev : event) : Eff unit := ([ev], inr tt).

Definition bind {A B} (m : Eff A) (k : A -> Eff B) : Eff B :=
  match m with
  | (t, inl e) => (t, inl e)
  | (t, inr a) => let (t', r) := k a in ((t ++ t')%list, r)
  end.

(** [try: m except Exception as e: h e] *)
Definition catch {A} (m : Eff A) (h : exn -> Eff A) : Eff A :=
  match m with
  | (t, inl e) => let (t', r) := h e in ((t ++ t')%list, r)
  | (t, inr a) => (t, inr a)
  end.

(** A step that may raise and has no event of its own. *)
Definition lift {A} (r : result A) : Eff A := ([], r).

Declare Scope eff_scope.
Delimit Scope eff_scope with eff.
Notation "x <- m ;; k" := (bind m (fun x => k))
  (at level 61, m at next level, right associativity) : eff_scope.
Notation "m ;;; k" := (bind m (fun _ => k))
  (at level 61, right associativity) : eff_scope.

Definition events {A} (m : Eff A) : list event := fst m.
Definition outcome {A} (m : Eff A) : result A := snd m.

(** The line feed of the f-strings. *)
Definition nl : string := String (ascii_of_nat 10) EmptyString.

(** ** [src/main.py]: the command sanitizer and the bash action *)
Module Sanitizer.
Import PyStr.

Definition dangerous_commands : list string :=
  [ "rm"; "sudo"; "shutdown"; "reboot"; "mkfs"; "fdisk"; ":(){:|:&};:" ].

(** [part == dc or part.startswith(dc + " ")] *)
Definition part_matches (part dc : string) : bool :=
  String.eqb part dc || startswith part (dc ++ " ").

(** The condition of the first [if]: a part of the command matches a
    dangerous command. *)
Definition parts_dangerous (parts : list string) : bool :=
  any (fun part => any (fun dc => part_matches part dc) dangerous_commands)
      parts.

(** The condition of the second [if]: a dangerous command occurs
    somewhere in the text. *)
Definition text_dangerous (command : string) : bool :=
  any (fun cmd => contains cmd command) dangerous_commands.

(** The body of the [try]: tokenize, and raise when a part matches. *)
Definition tokenized_check (command : string) : result unit :=
  match Shlex.split command with
  | inl e => inl e
  | inr parts =>
      if parts_dangerous parts
      then inl (ValueError
                  "Use of dangerous commands or patterns is restricted.")
      else inr tt
  end.

(** [_sanitize_command]: the [except Exception] clause takes whatever
    the body raises, the failure of [shlex.split] and the [ValueError]
    of the first check alike, and decides by the text alone. *)
Definition _sanitize_command (command : string) : result string :=
  match tokenized_check command with
  | inr tt => inr command
  | inl _ =>
      if text_dangerous command
      then inl (ValueError "Use of dangerous commands is restricted.")
      else inr command
  end.

Section Bash.
(** [asyncio.create_subprocess_shell] followed by [communicate]: the
    exit code with the decoded output and error streams, or the
    exception it ends with. *)
Variable run_shell : string -> result (Z * string * string).

Definition shell (command : string) : Eff (Z * string * string) :=
  (tell (SpawnShell command) ;;; lift (run_shell command))%eff.

(** [execute_bash_command]; the value is the [extracted_content] of
    the [ActionResult]. *)
Definition execute_bash_command (command : string) : Eff string :=
  match _sanitize_command command with
  | inl e => ret ("Command sanitization failed: " ++ str_of_exn e)
  | inr sanitized_command =>
      catch
        (p <- shell sanitized_command ;;
         let '(returncode, stdout, stderr) := p in
         let result_output := strip stdout in
         let result_error := strip stderr in
         let output :=
           if String.eqb result_output "" then ""
           else "" ++ result_output in
         let error :=
           if String.eqb result_error "" then ""
           else "" ++ result_error in
         if negb (returncode =? 0)%Z then
           ret ("Bash command failed with error code "
                  ++ str_of_Z returncode ++ "." ++ nl ++ "Output:" ++ nl
                  ++ output ++ nl ++ "Error:" ++ nl ++ error)
         else
           ret ("Bash command executed successfully." ++ nl ++ "Output:"
                  ++ nl ++ output
                  ++ (if String.eqb error "" then ""
                      else nl ++ "Error (stderr, but exit code 0):" ++ nl
                              ++ error)))%eff
        (fun e => ret ("Error executing bash command: " ++ str_of_exn e))
  end.
End Bash.

End Sanitizer.

(** ** [src/main.py]: running a DevTools script *)
Module Devtools.
Import PyStr.

Definition DEVTOOLS_SCRIPTS_DIR : string := "./devtool-scripts".
Definition NODE_EXECUTABLE : string := "node".

(** [os.path.join] on POSIX: a component that starts with a slash
    replaces what came before; otherwise it is appended, after a slash
    unless the path so far is empty or ends with one. *)
Fixpoint ends_with_slash (s : string) : bool :=
  match s with
  | EmptyString => false
  | String c EmptyString => Ascii.eqb c "/"
  | String _ s' => ends_with_slash s'
  end.

Definition join2 (a b : string) : string :=
  if startswith b "/" then b
  else if String.eqb a "" || ends_with_slash a then a ++ b
  else a ++ "/" ++ b.

Definition path_join (a : string) (ps : list string) : string :=
  fold_left join2 ps a.

(** What [json.loads] decodes to. *)
Inductive json : Type :=
| JNull
| JBool (b : bool)
| JNumber (literal : string)
| JString (s : string)
| JArray (items : list json)
| JObject (members : list (string * json)).

(** How a call of [json.loads] ends: with a value, with
    [json.JSONDecodeError], or with another exception. *)
Inductive loads_outcome : Type :=
| Decoded (v : json)
| JSONDecodeError (msg : string)
| LoadsRaises (e : exn).

Fixpoint lookup (k : string) (members : list (string * json)) : option json :=
  match members with
  | [] => None
  | (k', v) :: rest => if String.eqb k' k then Some v else lookup k rest
  end.

(** What [json.dumps] is given: a dictionary of strings, in the order
    the keys are written.  Its rendering as text is not modelled. *)
Definition dict : Type := list (string * string).

(** The value [_execute_devtools_script] returns: the validated output
    of the script as it is, or the JSON text of a dictionary. *)
Inductive script_result : Type :=
| Output (output_data : string)
| Dumps (d : dict).

Section Script.
Variable path_exists : string -> bool.
(** [subprocess.run(command, capture_output=True, text=True,
    check=False, cwd=..., timeout=90)]: exit code, output and error
    streams, or the exception it ends with. *)
Variable subprocess_run :
  list string -> string -> Z -> result (Z * string * string).
Variable json_loads : string -> loads_outcome.
(** [str(v)] of a decoded value, as an f-string formats it. *)
Variable py_str : json -> string.
(** The text of the [TypeError] of ["error" in v] and of [v["error"]]
    on a value that does not support it. *)
Variable not_iterable : json -> string.
Variable bad_subscript : json -> string.

(** ["error" in v]: a key of a dictionary, an item of a list, a part
    of a string; a [TypeError] on the other values. *)
Definition error_in (v : json) : result bool :=
  match v with
  | JObject members =>
      inr (match lookup "error" members with Some _ => true | None => false end)
  | JArray items =>
      inr (any (fun i => match i with
                         | JString s => String.eqb s "error"
                         | _ => false
                         end) items)
  | JString s => inr (contains "error" s)
  | _ => inl (OtherException (not_iterable v))
  end.

(** [v["error"]], evaluated only after ["error" in v] held. *)
Definition error_of (v : json) : result json :=
  match v with
  | JObject members =>
      match lookup "error" members with
      | Some e => inr e
      | None => inl (OtherException "'error'")
      end
  | _ => inl (OtherException (bad_subscript v))
  end.

(** The branch of a non-zero exit code: [Some d] when the inner [try]
    returns, [None] when control reaches the statement after it. *)
Definition stdout_error (script_name : string) (returncode : Z)
    (output_data error_data : string) : result (option dict) :=
  match json_loads output_data with
  | JSONDecodeError _ => inr None
  | LoadsRaises e => inl e
  | Decoded parsed_stdout_error =>
      match error_in parsed_stdout_error with
      | inl e => inl e
      | inr false => inr None
      | inr true =>
          match error_of parsed_stdout_error with
          | inl e => inl e
          | inr err =>
              inr (Some
                [ ("error", "Error from " ++ script_name ++ " (exit code "
                              ++ str_of_Z returncode ++ "): " ++ py_str err);
                  ("stderr", error_data) ])
          end
      end
  end.

(** The body of the outer [try]. *)
Definition run_script (script_name script_path url : string)
  : result script_result :=
  match subprocess_run [NODE_EXECUTABLE; script_path; url]
                       DEVTOOLS_SCRIPTS_DIR 90 with
  | inl e => inl e
  | inr (returncode, stdout, stderr) =>
      let output_data := strip stdout in
      let error_data := strip stderr in
      if negb (returncode =? 0)%Z then
        match stdout_error script_name returncode output_data error_data with
        | inl e => inl e
        | inr (Some d) => inr (Dumps d)
        | inr None =>
            inr (Dumps
              [ ("error", "Error executing " ++ script_name ++ " (exit code "
                            ++ str_of_Z returncode ++ ")");
                ("stdout", output_data);
                ("stderr", error_data) ])
        end
      else
        match json_loads output_data with
        | Decoded _ => inr (Output output_data)
        | JSONDecodeError _ =>
            inr (Dumps
              [ ("error", "Non-JSON output received from " ++ script_name);
                ("raw_output", output_data) ])
        | LoadsRaises e => inl e
        end
  end.

Definition _execute_devtools_script (script_name url : string)
  : script_result :=
  let script_path := path_join DEVTOOLS_SCRIPTS_DIR [script_name] in
  if negb (path_exists script_path) then
    Dumps [ ("error", "DevTools script not found: " ++ script_path) ]
  else if negb (path_exists
                  (path_join DEVTOOLS_SCRIPTS_DIR ["node_modules"; "puppeteer"]))
  then
    Dumps [ ("error", "Puppeteer not found in " ++ DEVTOOLS_SCRIPTS_DIR
               ++ "/node_modules. Please run 'npm install puppeteer' in that directory.") ]
  else
    match run_script script_name script_path url with
    | inr r => r
    | inl (TimeoutExpired _ _ _) =>
        Dumps [ ("error", "Timeout executing " ++ script_name
                            ++ " for URL: " ++ url) ]
    | inl (FileNotFoundError _) =>
        Dumps [ ("error", "Node.js executable ('" ++ NODE_EXECUTABLE
                   ++ "') not found. Please ensure Node.js is installed and in your PATH.") ]
    | inl e =>
        Dumps [ ("error", "Python error calling " ++ script_name ++ ": "
                            ++ str_of_exn e) ]
    end.

End Script.

(** The status that a result of [_execute_devtools_script] stands for:
    the output of the script passed on is a success, a dictionary with an
    [error] key is not.  (The statements use it for runs that complete,
    where the only other status is the failure.) *)
Inductive status : Type := Success | Failed.

Definition status_of (r : script_result) : status :=
  match r with
  | Output _ => Success
  | Dumps _ => Failed
  end.

Definition field (k : string) (r : script_result) : option string :=
  match r with
  | Output _ => None
  | Dumps d =>
      (fix find (d : dict) : option string :=
         match d with
         | [] => None
         | (k', v) :: rest => if String.eqb k' k then Some v else find rest
         end) d
  end.

End Devtools.

(** ** [src/tools/generic_cmd.py]: the Linux command tool *)
Module LinuxCmd.
Import PyStr.

(** The dictionary [execute_linux_command] returns. *)
Record envelope : Type := {
  command : string;
  return_code : option Z;
  stdout : string;
  stderr : string;
  timed_out : bool;
  error : option string
}.

Section Tool.
(** [os.path.expanduser] *)
Variable expanduser : string -> string.
(** [subprocess.run(cmd_parts, capture_output=True, text=True,
    timeout=timeout_seconds, cwd=working_directory, check=False)] *)
Variable subprocess_run :
  list string -> option string -> Z -> result (Z * string * string).

Definition expand_part (part : string) : string :=
  if startswith part "~/" || String.eqb part "~" then expanduser part
  else part.

Definition run (cmd_parts : list string) (cwd : option string)
    (timeout : Z) : Eff (Z * string * string) :=
  (tell (SpawnArgv cmd_parts cwd timeout) ;;;
   lift (subprocess_run cmd_parts cwd timeout))%eff.

(** [f"{s[:500]}{'...' if len(s) > 500 else ''}"] *)
Definition snippet (s : string) : string :=
  take 500 s ++ (if (500 <? String.length s)%nat then "..." else "").

(** The text after [not found:] in the two messages of the
    [FileNotFoundError] handler: [cmd_parts[0] if cmd_parts else
    command]. *)
Definition missing_name (cmd_parts : list string) (command : string)
  : string :=
  match cmd_parts with
  | part :: _ => part
  | [] => command
  end.

(** The body of the [try]. *)
Definition attempt (command : string) (working_directory : option string)
    (timeout_seconds : Z) : Eff envelope :=
  (cmd_parts <- lift (Shlex.split command) ;;
   let cmd_parts := map expand_part cmd_parts in
   match cmd_parts with
   | [] => raise (ToolError "Command string cannot be empty.")
   | _ =>
       p <- run cmd_parts working_directory timeout_seconds ;;
       let '(returncode, out, err) := p in
       let stdout := strip out in
       let stderr := strip err in
       let log_message :=
         "Command '" ++ command ++ "' executed. RC: "
           ++ str_of_Z returncode ++ "."
           ++ (if String.eqb stdout "" then ""
               else nl ++ "STDOUT:" ++ nl ++ snippet stdout)
           ++ (if String.eqb stderr "" then ""
               else nl ++ "STDERR:" ++ nl ++ snippet stderr) in
       tell (CtxInfo log_message) ;;;
       ret {| command := command;
              return_code := Some returncode;
              stdout := stdout;
              stderr := stderr;
              timed_out := false;
              error := None |}
   end)%eff.

(** [cmd_parts] as an exception handler sees it: the expanded parts
    once [shlex.split] has returned. *)
Definition parts_seen (command : string) : list string :=
  match Shlex.split command with
  | inr parts => map expand_part parts
  | inl _ => []
  end.

Definition handler (command : string) (timeout_seconds : Z) (e : exn)
  : Eff envelope :=
  match e with
  | TimeoutExpired _ _ _ =>
      (tell (CtxWarning ("Command '" ++ command ++ "' timed out after "
                           ++ str_of_Z timeout_seconds ++ " seconds.")) ;;;
       ret {| command := command;
              return_code := None;
              stdout := "";
              stderr := "Command timed out after "
                          ++ str_of_Z timeout_seconds ++ " seconds.";
              timed_out := true;
              error := None |})%eff
  | FileNotFoundError _ =>
      (tell (CtxError ("Command not found: "
                         ++ missing_name (parts_seen command) command)) ;;;
       raise (ToolError ("Command or one of its components not found: "
                           ++ missing_name (parts_seen command) command)))%eff
  | _ =>
      (tell (CtxError ("Error executing command '" ++ command ++ "': "
                         ++ str_of_exn e)) ;;;
       raise (ToolError
                ("An unexpected error occurred while trying to execute the command: "
                   ++ str_of_exn e)))%eff
  end.

(** [if working_directory:] holds for a directory that is given and
    not the empty string. *)
Definition truthy (working_directory : option string) : bool :=
  match working_directory with
  | Some d => negb (String.eqb d "")
  | None => false
  end.

Definition execute_linux_command (command : string)
    (working_directory : option string) (timeout_seconds : Z)
  : Eff envelope :=
  (tell (CtxInfo ("Attempting to execute Linux command: '" ++ command
                    ++ "' with timeout " ++ str_of_Z timeout_seconds ++ "s")) ;;;
   (if truthy working_directory
    then tell (CtxInfo ("Working directory: "
                          ++ match working_directory with
                             | Some d => d
                             | None => ""
                             end))
    else ret tt) ;;;
   catch (attempt command working_directory timeout_seconds)
         (handler command timeout_seconds))%eff.

End Tool.

End LinuxCmd.

(** ** [src/tools/python-tools/analysis.py]: orchestration tools *)
Module Orchestration.
Import PyStr.

(** The [Literal] type of the [profile] argument. *)
Inductive profile : Type :=
| quick_recon
| web_deep_dive
| full_infrastructure_pentest.

Definition profile_str (p : profile) : string :=
  match p with
  | quick_recon => "quick_recon"
  | web_deep_dive => "web_deep_dive"
  | full_infrastructure_pentest => "full_infrastructure_pentest"
  end.

Record start_reply : Type := {
  assessment_id : string;
  status : string;
  reply_profile : profile
}.

Record status_reply : Type := {
  status_assessment_id : string;
  status_status : string;
  progress : Z
}.

(** The object FastMCP passes to a tool as [ctx].  Every tool awaits its
    [info] method; [start_full_assessment] also evaluates [ctx.client].
    [client] is what the object has under that name, if anything: an
    object whose [call_tool] makes the coroutine of a tool call. *)
Inductive Client : Type := McpClient.

Record Context : Type := {
  client : option Client
}.

(** [ctx.client] *)
Definition ctx_client (ctx : Context) : result Client :=
  match client ctx with
  | Some c => inr c
  | None => inl (AttributeError "'Context' object has no attribute 'client'")
  end.

(** The [Context] class of the [fastmcp] package, which the module
    imports: it has the methods [info], [warning], [error] and
    [report_progress] that the tools call, and nothing named [client]. *)
Definition fastmcp_context : Context := {| client := None |}.

Definition start_full_assessment (ctx : Context)
    (target_scope_description : string)
    (assessment_name : string) (p : profile) : Eff start_reply :=
  (tell (CtxInfo ("Starting full assessment '" ++ assessment_name
                    ++ "' for " ++ target_scope_description)) ;;;
   let assessment_id :=
     "ASMT_" ++ upper (replace_char " " "_" assessment_name)
       ++ "_" ++ upper (profile_str p) in
   lift (ctx_client ctx) ;;;
   tell (CreateTask "ReconnaissanceTools.subdomain_enumeration"
                    [("target_domain", target_scope_description)]) ;;;
   ret {| assessment_id := assessment_id;
          status := "initiated";
          reply_profile := p |})%eff.

Definition get_assessment_status (assessment_id : string)
  : Eff status_reply :=
  (tell (CtxInfo ("Fetching status for assessment " ++ assessment_id)) ;;;
   ret {| status_assessment_id := assessment_id;
          status_status := "in_progress";
          progress := 50 |})%eff.

(** A session of the orchestration server: the tool calls it receives,
    in order, each served with the context [ctx].  The module keeps no
    variable between calls, so every call is answered from its arguments
    alone; a call that raises is answered with its exception and the
    session goes on. *)
Inductive request : Type :=
| StartFullAssessment (target_scope_description assessment_name : string)
                      (p : profile)
| GetAssessmentStatus (assessment_id : string).

Inductive reply : Type :=
| Started (r : start_reply)
| Status (r : status_reply)
| Raised (e : exn).

Definition serve_one (ctx : Context) (q : request) : reply :=
  match q with
  | StartFullAssessment scope name p =>
      match outcome (start_full_assessment ctx scope name p) with
      | inr r => Started r
      | inl e => Raised e
      end
  | GetAssessmentStatus id =>
      match outcome (get_assessment_status id) with
      | inr r => Status r
      | inl e => Raised e
      end
  end.

Definition serve (ctx : Context) (session : list request) : list reply :=
  map (serve_one ctx) session.

(** The identifiers handed out by the [start_full_assessment] calls of a
    session. *)
Fixpoint started_ids (ctx : Context) (session : list request)
  : list string :=
  match session with
  | [] => []
  | q :: rest =>
      match serve_one ctx q with
      | Started r => assessment_id r :: started_ids ctx rest
      | _ => started_ids ctx rest
      end
  end.

End Orchestration.

(** ** [src/main.py]: the DevTools actions

    The four actions check the URL and hand it to
    [_execute_devtools_script] with the name of their script; the value is
    the [extracted_content] of the [ActionResult]. *)
Module Actions.
Import PyStr Devtools.

Section Inspect.
Variable path_exists : string -> bool.
Variable subprocess_run :
  list string -> string -> Z -> result (Z * string * string).
Variable json_loads : string -> loads_outcome.
Variable py_str : json -> string.
Variable not_iterable : json -> string.
Variable bad_subscript : json -> string.

(** [url.startswith(("http://", "https://"))] *)
Definition url_ok (url : string) : bool :=
  startswith url "http://" || startswith url "https://".

Definition invalid_url : script_result :=
  Dumps [ ("error", "Invalid URL format. Must start with http:// or https://") ].

Definition inspect_network_traffic (url : string) : script_result :=
  if negb (url_ok url) then invalid_url
  else _execute_devtools_script path_exists subprocess_run json_loads py_str
         not_iterable bad_subscript "get_network_data.js" url.

Definition inspect_console_logs (url : string) : script_result :=
  if negb (url_ok url) then invalid_url
  else _execute_devtools_script path_exists subprocess_run json_loads py_str
         not_iterable bad_subscript "get_console_logs.js" url.

Definition inspect_application_storage (url : string) : script_result :=
  if negb (url_ok url) then invalid_url
  else _execute_devtools_script path_exists subprocess_run json_loads py_str
         not_iterable bad_subscript "get_application_storage.js" url.

Definition inspect_page_sources (url : string) : script_result :=
  if negb (url_ok url) then invalid_url
  else _execute_devtools_script path_exists subprocess_run json_loads py_str
         not_iterable bad_subscript "get_page_sources.js" url.

End Inspect.

End Actions.

(** ** Python values and lines

    The values the analysis tools return or read: dictionaries keep the
    order in which their keys were set. *)
Inductive value : Type :=
| VNone
| VBool (b : bool)
| VInt (n : Z)
| VStr (s : string)
| VList (items : list value)
| VDict (members : list (string * value)).

(** [d[k]] as an option *)
Fixpoint dict_get (k : string) (members : list (string * value))
  : option value :=
  match members with
  | [] => None
  | (k', v) :: rest => if String.eqb k' k then Some v else dict_get k rest
  end.

(** The keys of a dictionary, in order. *)
Definition keys (members : list (string * value)) : list string :=
  map fst members.

(** A character at which [str.splitlines] ends a line, alone: LF, VT, FF,
    CR, FS, GS, RS. *)
Definition is_linebreak (c : ascii) : bool :=
  let n := nat_of_ascii c in
  ((10 <=? n) && (n <=? 13) || (28 <=? n) && (n <=? 30))%nat.

Definition is_cr (c : ascii) : bool := (nat_of_ascii c =? 13)%nat.
Definition is_lf (c : ascii) : bool := (nat_of_ascii c =? 10)%nat.

(** [lines_from s line]: the lines of [s] after the characters [line] of
    the current line; CR followed by LF ends one line, and a last line
    without a line break counts when it is not empty. *)
Fixpoint lines_from (s : string) (line : string) : list string :=
  match s with
  | EmptyString => if String.eqb line "" then [] else [line]
  | String c rest =>
      if is_linebreak c then
        match rest with
        | String d rest' =>
            if is_cr c && is_lf d then line :: lines_from rest' ""
            else line :: lines_from rest ""
        | EmptyString => line :: lines_from rest ""
        end
      else lines_from rest (line ++ String c EmptyString)
  end.

(** [s.splitlines()] *)
Definition splitlines (s : string) : list string := lines_from s "".

(** ** Effects of the tools built on [asyncio]

    Events of the tools that start their child processes with
    [asyncio.create_subprocess_exec]: a message sent through the context, a
    child process asked for, a call of [ctx.report_progress] (always with
    progress 1.0), a call of the [scan] method of [nmap.PortScanner]. *)
Module Async.

Inductive aevent : Type :=
| AInfo (msg : string)
| AExec (argv : list string)
| AProgress (message : string)
| ANmap (hosts ports arguments : string).

Definition AEff (A : Type) : Type := (list aevent * result A)%type.

Definition aret {A} (a : A) : AEff A := ([], inr a).
Definition araise {A} (e : exn) : AEff A := ([], inl e).
Definition atell (ev : aevent) : AEff unit := ([ev], inr tt).
Definition alift {A} (r : result A) : AEff A := ([], r).

Definition abind {A B} (m : AEff A) (k : A -> AEff B) : AEff B :=
  match m with
  | (t, inl e) => (t, inl e)
  | (t, inr a) => let (t', r) := k a in ((t ++ t')%list, r)
  end.

Declare Scope aeff_scope.
Delimit Scope aeff_scope with aeff.
Notation "x <- m ;; k" := (abind m (fun x => k))
  (at level 61, m at next level, right associativity) : aeff_scope.
Notation "m ;;; k" := (abind m (fun _ => k))
  (at level 61, right associativity) : aeff_scope.

Definition aevents {A} (m : AEff A) : list aevent := fst m.
Definition aoutcome {A} (m : AEff A) : result A := snd m.

(** The bytes a child process writes. *)
Definition bytes : Type := string.

End Async.

(** ** [src/tools/python-tools/analysis.py]: analysis and reporting *)
Module Analysis.
Import PyStr Async.

(** The [Literal] types of the arguments. *)
Inductive analysis_type : Type := sast_full | sast_lightweight | dependency_check.

Definition analysis_type_str (a : analysis_type) : string :=
  match a with
  | sast_full => "sast_full"
  | sast_lightweight => "sast_lightweight"
  | dependency_check => "dependency_check"
  end.

Inductive codeql_language : Type := csharp | cpp | go | java | javascript | python.

Definition codeql_language_str (l : codeql_language) : string :=
  match l with
  | csharp => "csharp"
  | cpp => "cpp"
  | go => "go"
  | java => "java"
  | javascript => "javascript"
  | python => "python"
  end.

Inductive output_format : Type := json_format | markdown | html_summary.

Definition output_format_str (f : output_format) : string :=
  match f with
  | json_format => "json"
  | markdown => "markdown"
  | html_summary => "html_summary"
  end.

Section Tools.
(** [asyncio.create_subprocess_exec] on the argument vector, followed by
    [communicate]: the exit code and what the child wrote to its output
    and error streams, or the exception the call ends with. *)
Variable run_exec : list string -> result (Z * bytes * bytes).
(** [b.decode()] *)
Variable decode : bytes -> result string.
(** [json.loads(s)]: a value, or the exception it raises. *)
Variable json_loads : string -> result value.
(** [open("codeql-results.json")] followed by [json.load]. *)
Variable load_results : result value.

Definition exec (argv : list string) : AEff (Z * bytes * bytes) :=
  (atell (AExec argv) ;;; alift (run_exec argv))%aeff.

(** [language or 'p/ci'] *)
Definition language_or_default (language : option string) : string :=
  match language with
  | Some l => if String.eqb l "" then "p/ci" else l
  | None => "p/ci"
  end.

Definition analyze_source_code (code_path_or_url : string)
    (language : option string) (a : analysis_type) : AEff value :=
  (atell (AInfo ("Starting " ++ analysis_type_str a ++ " on "
                   ++ code_path_or_url)) ;;;
   findings <-
     (if startswith (analysis_type_str a) "sast" then
        p <- exec ["semgrep"; "-q"; "-f"; language_or_default language;
                   code_path_or_url] ;;
        let '(_, out, _) := p in
        text <- alift (decode out) ;;
        aret (VList (map VStr (splitlines text)))
      else if String.eqb (analysis_type_str a) "dependency_check" then
        p <- exec ["safety"; "check"; "--json"] ;;
        let '(_, out, _) := p in
        text <- alift (decode out) ;;
        alift (json_loads text)
      else aret (VList [])) ;;
   aret (VDict [ ("source", VStr code_path_or_url);
                 ("findings", findings) ]))%aeff.

Definition codeql_scan (code_path : string) (language : codeql_language)
    (database_name : string) : AEff value :=
  (atell (AInfo ("Creating CodeQL database '" ++ database_name
                   ++ "' for language " ++ codeql_language_str language)) ;;;
   p <- exec ["codeql"; "database"; "create"; database_name;
              "--language=" ++ codeql_language_str language;
              "--source-root"; code_path] ;;
   let '(returncode, _, err) := p in
   (if negb (returncode =? 0)%Z then
      text <- alift (decode err) ;;
      araise (ToolError ("CodeQL database creation failed: " ++ strip text))
    else aret tt) ;;;
   atell (AInfo "Analyzing CodeQL database") ;;;
   p <- exec ["codeql"; "database"; "analyze"; database_name;
              "security-and-quality.qls"; "--format=json"; "--output";
              "codeql-results.json"] ;;
   let '(returncode, _, err) := p in
   (if negb (returncode =? 0)%Z then
      text <- alift (decode err) ;;
      araise (ToolError ("CodeQL analysis failed: " ++ strip text))
    else aret tt) ;;;
   match load_results with
   | inl e =>
       araise (ToolError ("Failed to read CodeQL results: " ++ str_of_exn e))
   | inr results =>
       aret (VDict [ ("database", VStr database_name);
                     ("results", results) ])
   end)%aeff.

(** One of the two halves of [secret_discovery]: run the tool and file
    what it found, or its error stream, in the findings. *)
Definition discover (tool : string) (argv : list string)
    (findings : list (string * value)) : AEff (list (string * value)) :=
  (p <- exec argv ;;
   let '(returncode, out, err) := p in
   if (returncode =? 0)%Z then
     match decode out with
     | inl _ =>
         (* the handler decodes again, and raises again *)
         text <- alift (decode out) ;;
         aret (findings ++ [(tool, VList (map VStr (splitlines text)))])%list
     | inr text =>
         match json_loads text with
         | inr v => aret (findings ++ [(tool, v)])%list
         | inl _ =>
             aret (findings ++ [(tool, VList (map VStr (splitlines text)))])%list
         end
     end
   else
     text <- alift (decode err) ;;
     let key := tool ++ "_error" in
     aret (findings ++ [(key, VStr (strip text))])%list)%aeff.

Definition secret_discovery (code_path_or_url : string) : AEff value :=
  (atell (AInfo ("Running secret discovery on " ++ code_path_or_url)) ;;;
   findings <- discover "bandit"
                 ["bandit"; "-r"; code_path_or_url; "-f"; "json"] [] ;;
   findings <- discover "trufflehog"
                 ["trufflehog"; "filesystem"; "--json"; code_path_or_url]
                 findings ;;
   aret (VDict [ ("path", VStr code_path_or_url);
                 ("findings", VDict findings) ]))%aeff.

End Tools.

(** The tools below start no process; they use the events of the Linux
    command tool. *)

Definition correlate_findings (assessment_id : string) : Eff value :=
  (tell (CtxInfo ("Correlating findings for " ++ assessment_id)) ;;;
   ret (VDict [ ("assessment_id", VStr assessment_id);
                ("correlated_risks",
                 VList [ VDict [ ("name", VStr "Chained RCE->DB Drop");
                                 ("severity", VStr "Critical") ] ]) ]))%eff.

Definition summary : list (string * value) :=
  [ ("critical", VInt 2); ("high", VInt 5); ("medium", VInt 10) ].

Definition generate_vulnerability_report (assessment_id : string)
    (fmt : output_format) (include_remediation_advice : bool) : Eff value :=
  (tell (CtxInfo ("Generating " ++ output_format_str fmt ++ " report for "
                    ++ assessment_id)) ;;;
   if String.eqb (output_format_str fmt) "json" then
     let report :=
       [ ("assessment_id", VStr assessment_id); ("summary", VDict summary) ] in
     let report :=
       if include_remediation_advice
       then (report ++ [ ("remediation",
                          VStr "Apply recommended patches and configuration changes.") ])%list
       else report in
     ret (VDict [ ("format", VStr (output_format_str fmt));
                  ("report_data", VDict report) ])
   else if String.eqb (output_format_str fmt) "markdown" then
     let md :=
       "# Report " ++ assessment_id ++ nl ++ nl ++ "Summary:" ++ nl
         ++ "- Critical: " ++ str_of_Z 2 ++ nl
         ++ "- High: " ++ str_of_Z 5 ++ nl
         ++ "- Medium: " ++ str_of_Z 10 in
     let md :=
       if include_remediation_advice
       then md ++ nl ++ nl ++ "**Remediation:** Apply patches."
       else md in
     ret (VDict [ ("format", VStr (output_format_str fmt));
                  ("report_content", VStr md) ])
   else
     ret (VDict [ ("format", VStr (output_format_str fmt));
                  ("error", VStr "Unsupported format") ]))%eff.

End Analysis.

(** ** [src/tools/python-tools/recon.py]: subdomain enumeration

    The tool that [start_full_assessment] asks its client to call. *)
Module Recon.
Import PyStr Async.

Section Enumeration.
Variable run_exec : list string -> result (Z * bytes * bytes).
Variable decode : bytes -> result string.
(** [list(set(lines))]: the members of the set, in the order the set
    yields them. *)
Variable set_order : list string -> list string.

Definition amass_argv (target_domain : string) : list string :=
  ["amass"; "enum"; "-d"; target_domain].

(** The body of the [try]: the list [errors] as the body leaves it, and
    the subdomains or the exception the body ends with. *)
Definition enumeration_try (target_domain : string)
  : list string * result (list string) :=
  match run_exec (amass_argv target_domain) with
  | inl e => ([], inl e)
  | inr (returncode, stdout, stderr) =>
      let appended : list string * result unit :=
        if negb (returncode =? 0)%Z then
          match decode stderr with
          | inl e => ([], inl e)
          | inr text => ([strip text], inr tt)
          end
        else ([], inr tt) in
      match appended with
      | (errors, inl e) => (errors, inl e)
      | (errors, inr _) =>
          match decode stdout with
          | inl e => (errors, inl e)
          | inr text => (errors, inr (set_order (splitlines text)))
          end
      end
  end.

Definition enumeration_reply (target_domain : string)
    (subdomains errors : list string) : value :=
  VDict [ ("target_domain", VStr target_domain);
          ("subdomains", VList (map VStr subdomains));
          ("errors", VList (map VStr errors)) ].

Definition subdomain_enumeration (target_domain : string) : AEff value :=
  (atell (AInfo ("Starting subdomain enumeration for " ++ target_domain)) ;;;
   atell (AExec (amass_argv target_domain)) ;;;
   match enumeration_try target_domain with
   | (errors, inr subdomains) =>
       atell (AProgress "Enumeration complete.") ;;;
       aret (enumeration_reply target_domain subdomains errors)
   | (errors, inl (FileNotFoundError _)) =>
       atell (AProgress "Enumeration complete.") ;;;
       aret (enumeration_reply target_domain []
               (errors ++ ["Amass not installed or not in PATH."])%list)
   | (_, inl e) => araise e
   end)%aeff.

End Enumeration.

End Recon.

(** ** [src/tools/scan.py]: port scan and directory search *)
Module Scan.
Import PyStr Async.

(** [s.split()]: the words of [s] between runs of white space.
    [words_from s word] has the characters [word] of the current word in
    hand. *)
Fixpoint words_from (s : string) (word : string) : list string :=
  match s with
  | EmptyString => if String.eqb word "" then [] else [word]
  | String c rest =>
      if isspace c then
        if String.eqb word "" then words_from rest ""
        else word :: words_from rest ""
      else words_from rest (word ++ String c EmptyString)
  end.

Definition py_split (s : string) : list string := words_from s "".

(** The [Literal] types of the arguments. *)
Inductive scan_type : Type := SYN | TCP_Connect | UDP.

Definition scan_type_str (t : scan_type) : string :=
  match t with
  | SYN => "SYN"
  | TCP_Connect => "TCP Connect"
  | UDP => "UDP"
  end.

Inductive wordlist_size : Type := small | medium | large.

Definition wordlist_size_str (w : wordlist_size) : string :=
  match w with
  | small => "small"
  | medium => "medium"
  | large => "large"
  end.

(** What the scanner holds about one port after a scan: [info['state']],
    [info.get('name')] and [info.get('version')]. *)
Record port_info : Type := {
  state : string;
  name : option string;
  version : option string
}.

(** The hosts of a scan with their protocols and the ports of each, as
    [all_hosts], [all_protocols] and [keys] list them. *)
Definition scan_data : Type :=
  list (string * list (string * list (Z * port_info))).

Definition opt_str (o : option string) : value :=
  match o with
  | Some s => VStr s
  | None => VNone
  end.

(** A value that Python takes as true: given and not empty. *)
Definition given (o : option string) : bool :=
  match o with
  | Some s => negb (String.eqb s "")
  | None => false
  end.

(** [o or default] *)
Definition or_default (o : option string) (default : string) : string :=
  match o with
  | Some s => if String.eqb s "" then default else s
  | None => default
  end.

Section Tools.
(** [nmap.PortScanner()]: it raises when nmap is not installed. *)
Variable port_scanner : result unit.
(** [nm.scan(hosts, ports, arguments)]: what the scanner holds
    afterwards, or the exception raised. *)
Variable nmap_scan : string -> string -> string -> result scan_data.
Variable run_exec : list string -> result (Z * bytes * bytes).
Variable decode : bytes -> result string.

Definition port_entries (data : scan_data) : list value :=
  flat_map (fun host_entry : string * list (string * list (Z * port_info)) =>
    flat_map (fun proto_entry : string * list (Z * port_info) =>
      map (fun port_entry : Z * port_info =>
             VDict [ ("port", VInt (fst port_entry));
                     ("protocol", VStr (fst proto_entry));
                     ("state", VStr (state (snd port_entry)));
                     ("service", opt_str (name (snd port_entry)));
                     ("version", opt_str (version (snd port_entry))) ])
          (snd proto_entry))
      (snd host_entry))
    data.

(** The value of [args] before it is stripped. *)
Definition scan_flags (t : scan_type) (include_version_info : bool) : string :=
  let args := "" in
  let args := if include_version_info then args ++ " -sV" else args in
  if String.eqb (scan_type_str t) "SYN" then args ++ " -sT"
  else if String.eqb (scan_type_str t) "TCP Connect" then args ++ " -sT"
  else if String.eqb (scan_type_str t) "UDP" then args ++ " -sU"
  else args.

Definition port_scan (target_host : string) (ports : option string)
    (t : scan_type) (include_version_info : bool) : AEff value :=
  (atell (AInfo ("Starting " ++ scan_type_str t ++ " port scan on "
                   ++ target_host)) ;;;
   alift port_scanner ;;;
   let scan_args := strip (scan_flags t include_version_info) in
   atell (ANmap target_host (or_default ports "1-1024") scan_args) ;;;
   data <- alift (nmap_scan target_host (or_default ports "1-1024") scan_args) ;;
   aret (VDict [ ("target", VStr target_host);
                 ("ports", VList (port_entries data)) ]))%aeff.

(** [[line.split()[0] for line in lines if line]]: the first word of
    every line that is not empty, or the [IndexError] of a line without
    any word. *)
Fixpoint first_words (lines : list string) : result (list string) :=
  match lines with
  | [] => inr []
  | line :: rest =>
      if String.eqb line "" then first_words rest
      else
        match py_split line with
        | [] => inl (OtherException "list index out of range")
        | w :: _ =>
            match first_words rest with
            | inl e => inl e
            | inr ws => inr (w :: ws)
            end
        end
  end.

Definition gobuster_argv (base_url : string) (w : wordlist_size)
    (extensions : option string) : list string :=
  let wordlist :=
    "/usr/share/wordlists/dirbuster/" ++ wordlist_size_str w ++ ".txt" in
  let cmd := ["gobuster"; "dir"; "-u"; base_url; "-w"; wordlist] in
  if given extensions
  then (cmd ++ ["-x"; match extensions with Some e => e | None => "" end])%list
  else cmd.

Definition web_directory_bruteforce (base_url : string) (w : wordlist_size)
    (extensions : option string) : AEff value :=
  (atell (AInfo ("Starting directory bruteforce on " ++ base_url)) ;;;
   atell (AExec (gobuster_argv base_url w extensions)) ;;;
   p <- alift (run_exec (gobuster_argv base_url w extensions)) ;;
   let '(_, stdout, _) := p in
   text <- alift (decode stdout) ;;
   paths <- alift (first_words (splitlines text)) ;;
   aret (VDict [ ("base_url", VStr base_url);
                 ("discovered_paths", VList (map VStr paths)) ]))%aeff.

End Tools.

End Scan.

(** ** Vocabulary of the statements *)

(** [a] occurs in [b]. *)
Definition occurs (a b : string) : Prop :=
  exists pre post, b = pre ++ a ++ post.

(** No quote and no backslash in the text. *)
Fixpoint plain (s : string) : bool :=
  match s with
  | EmptyString => true
  | String c s' =>
      negb (Shlex.is_quote c) && negb (Shlex.is_escape c) && plain s'
  end.

(** Only white space in the text. *)
Fixpoint blank (s : string) : bool :=
  match s with
  | EmptyString => true
  | String c s' => Shlex.is_whitespace c && blank s'
  end.

(** The reader is not inside a quotation or after an escape. *)
Definition outside (st : Shlex.state) : Prop :=
  st = Shlex.InSpace \/ st = Shlex.InWord.

(** Every character of the text satisfies [p]. *)
Fixpoint all_chars (p : ascii -> bool) (s : string) : bool :=
  match s with
  | EmptyString => true
  | String c s' => p c && all_chars p s'
  end.

(** The messages of the two [ValueError]s of [_sanitize_command]. *)
Definition msg_parts : string :=
  "Use of dangerous commands or patterns is restricted.".
Definition msg_text : string :=
  "Use of dangerous commands is restricted.".

(** The beginnings of the two [ToolError] messages of
    [execute_linux_command]. *)
Definition msg_unexpected : string :=
  "An unexpected error occurred while trying to execute the command: ".
Definition msg_not_found : string :=
  "Command or one of its components not found: ".

(** The messages [execute_linux_command] sends before the [try]. *)
Definition preamble (command : string) (working_directory : option string)
    (timeout_seconds : Z) : list event :=
  CtxInfo ("Attempting to execute Linux command: '" ++ command
             ++ "' with timeout " ++ PyStr.str_of_Z timeout_seconds ++ "s")
  :: (if LinuxCmd.truthy working_directory
      then [CtxInfo ("Working directory: "
                       ++ match working_directory with
                          | Some d => d
                          | None => ""
                          end)]
      else []).

(** The script and the puppeteer module are where
    [_execute_devtools_script] looks for them. *)
Definition installed (path_exists : string -> bool) (script_name : string)
  : Prop :=
  path_exists
    (Devtools.path_join Devtools.DEVTOOLS_SCRIPTS_DIR [script_name]) = true /\
  path_exists
    (Devtools.path_join Devtools.DEVTOOLS_SCRIPTS_DIR
       ["node_modules"; "puppeteer"]) = true.

(** The child process of [_execute_devtools_script] ran to its end with
    this exit code and these streams. *)
Definition completed
    (subprocess_run : list string -> string -> Z -> result (Z * string * string))
    (script_name url : string) (returncode : Z) (stdout stderr : string)
  : Prop :=
  subprocess_run
    [Devtools.NODE_EXECUTABLE;
     Devtools.path_join Devtools.DEVTOOLS_SCRIPTS_DIR [script_name]; url]
    Devtools.DEVTOOLS_SCRIPTS_DIR 90%Z
  = inr (returncode, stdout, stderr).

(** ** Sample surroundings

    For the closed statements: a home directory, a child that runs past its
    time limit after writing to both streams, a machine on which the
    executable is missing. *)
Definition sample_expanduser (part : string) : string :=
  match part with
  | String _ rest => "/home/operator" ++ rest
  | EmptyString => EmptyString
  end.

Definition run_times_out (argv : list string) (cwd : option string) (t : Z)
  : result (Z * string * string) :=
  inl (TimeoutExpired "Command timed out" "progress: 40%" "warning: slow link").

Definition run_not_found (argv : list string) (cwd : option string) (t : Z)
  : result (Z * string * string) :=
  inl (FileNotFoundError "[Errno 2] No such file or directory: 'nosuchtool'").

(** For the DevTools script: everything is installed, and a decoder that
    agrees with [json.loads] on the texts used in the statements; it
    decodes the documents [{}], [[]] and [null] and answers
    [JSONDecodeError] to text that is not JSON such as [Navigation done]. *)
Definition sample_exists (path : string) : bool := true.

Definition sample_loads (s : string) : Devtools.loads_outcome :=
  if String.eqb s "{}" then Devtools.Decoded (Devtools.JObject [])
  else if String.eqb s "[]" then Devtools.Decoded (Devtools.JArray [])
  else if String.eqb s "null" then Devtools.Decoded Devtools.JNull
  else Devtools.JSONDecodeError "Expecting value: line 1 column 1 (char 0)".

Definition sample_str (v : Devtools.json) : string := "None".
Definition sample_type_error (v : Devtools.json) : string :=
  "argument of type 'NoneType' is not iterable".

(** A script that prints a line of plain text and exits with code zero. *)
Definition run_prints_text (argv : list string) (cwd : string) (t : Z)
  : result (Z * string * string) :=
  inr (0%Z, "Navigation done" ++ nl, "").

(** ** Further vocabulary *)

(** No white space of the tokenizer in the text. *)
Definition no_ws (s : string) : bool :=
  all_chars (fun c => negb (Shlex.is_whitespace c)) s.

(** A word that the tokenizer reads as it is written: not empty, without
    white space, quote or backslash. *)
Definition plain_word (w : string) : bool :=
  negb (String.eqb w "") && no_ws w && plain w.

(** [" ".join(words)] *)
Fixpoint join_words (words : list string) : string :=
  match words with
  | [] => ""
  | [w] => w
  | w :: rest => w ++ " " ++ join_words rest
  end.

(** The first, and the last, character of the text is white space in the
    sense of [str.isspace]. *)
Definition starts_with_space (s : string) : bool :=
  match s with
  | String c _ => PyStr.isspace c
  | EmptyString => false
  end.

Fixpoint ends_with_space (s : string) : bool :=
  match s with
  | EmptyString => false
  | String c EmptyString => PyStr.isspace c
  | String _ s' => ends_with_space s'
  end.

(** The number of child processes a call asked for. *)
Definition spawn_count (evs : list event) : nat :=
  List.length (filter is_spawn evs).

(** A child process that ends with the given exit code and streams,
    whatever it is asked to run. *)
Definition run_ends_with (returncode : Z) (out err : string)
    (argv : list string) (cwd : option string) (t : Z)
  : result (Z * string * string) :=
  inr (returncode, out, err).

(** A decoded value on which the look-up of the [error] key, in the
    branch of a non-zero exit code, ends in a [TypeError]: a number, a
    truth value, null, or a string or list in which ["error"] occurs. *)
Definition breaks_error_lookup (v : Devtools.json) : bool :=
  match v with
  | Devtools.JNull | Devtools.JBool _ | Devtools.JNumber _ => true
  | Devtools.JString s => PyStr.contains "error" s
  | Devtools.JArray items =>
      PyStr.any (fun i => match i with
                          | Devtools.JString s => String.eqb s "error"
                          | _ => false
                          end) items
  | Devtools.JObject _ => false
  end.

(** The scopes of the [start_full_assessment] calls of a session, in
    order. *)
Fixpoint started_scopes (session : list Orchestration.request) : list string :=
  match session with
  | [] => []
  | Orchestration.StartFullAssessment scope _ _ :: rest =>
      scope :: started_scopes rest
  | Orchestration.GetAssessmentStatus _ :: rest => started_scopes rest
  end.

(** The events of a session: those of its calls, one call after the
    other. *)
Definition session_events (ctx : Orchestration.Context)
    (session : list Orchestration.request) : list event :=
  flat_map (fun q =>
              match q with
              | Orchestration.StartFullAssessment scope name p =>
                  events (Orchestration.start_full_assessment ctx scope name p)
              | Orchestration.GetAssessmentStatus id =>
                  events (Orchestration.get_assessment_status id)
              end) session.

Definition is_task (e : event) : bool :=
  match e with
  | CreateTask _ _ => true
  | _ => false
  end.

(** A decoder that decodes every text to the number 7. *)
Definition loads_seven (s : string) : Devtools.loads_outcome :=
  Devtools.Decoded (Devtools.JNumber "7").

(** A script that prints [7] and exits with code 1. *)
Definition run_fails_with_seven (argv : list string) (cwd : string) (t : Z)
  : result (Z * string * string) :=
  inr (1%Z, "7" ++ nl, "TypeError: x is undefined" ++ nl).

(** A script that prints [{}] and exits with code 0. *)
Definition run_prints_object (argv : list string) (cwd : string) (t : Z)
  : result (Z * string * string) :=
  inr (0%Z, "{}" ++ nl, "").

(** Surroundings of the analysis tools: every child ends with the given
    exit code and streams, bytes decode to the same text, and the decoder
    of JSON rejects every text. *)
Definition exec_ends_with (returncode : Z) (out err : Async.bytes)
    (argv : list string) : result (Z * Async.bytes * Async.bytes) :=
  inr (returncode, out, err).

Definition decode_ascii (b : Async.bytes) : result string := inr b.

Definition loads_rejects (s : string) : result value :=
  inl (ValueError "Expecting value: line 1 column 1 (char 0)").

Definition is_exec (e : Async.aevent) : bool :=
  match e with
  | Async.AExec _ => true
  | _ => false
  end.

(** The argument vectors of the two child processes of [codeql_scan] and
    of the two of [secret_discovery]. *)
Definition codeql_create_argv (code_path : string)
    (language : Analysis.codeql_language) (database_name : string)
  : list string :=
  ["codeql"; "database"; "create"; database_name;
   "--language=" ++ Analysis.codeql_language_str language;
   "--source-root"; code_path].

Definition codeql_analyze_argv (database_name : string) : list string :=
  ["codeql"; "database"; "analyze"; database_name;
   "security-and-quality.qls"; "--format=json"; "--output";
   "codeql-results.json"].

Definition bandit_argv (path : string) : list string :=
  ["bandit"; "-r"; path; "-f"; "json"].

Definition trufflehog_argv (path : string) : list string :=
  ["trufflehog"; "filesystem"; "--json"; path].

(** The key under which [secret_discovery] files what a tool gave, by the
    exit code of the tool. *)
Definition entry_name (tool : string) (returncode : Z) : string :=
  if (returncode =? 0)%Z then tool else tool ++ "_error".

(** The stream of a child process that [secret_discovery] decodes: what
    the child wrote to its output after exit code zero, to its error
    stream otherwise. *)
Definition stream_read (returncode : Z) (out err : Async.bytes)
  : Async.bytes :=
  if (returncode =? 0)%Z then out else err.

(** What [secret_discovery] files for a tool whose stream decoded to
    [text]: after exit code zero the value [json_loads] gives, or the
    lines of the text when it gives none; otherwise the text
    stripped. *)
Definition entry_value (json_loads : string -> result value)
    (returncode : Z) (text : string) : value :=
  if (returncode =? 0)%Z then
    match json_loads text with
    | inr v => v
    | inl _ => VList (map VStr (splitlines text))
    end
  else VStr (PyStr.strip text).

(** More vocabulary: the events that are calls of the scanner, the lines
    that are not empty, the text that is white space only. *)
Definition is_nmap (e : Async.aevent) : bool :=
  match e with
  | Async.ANmap _ _ _ => true
  | _ => false
  end.

Definition not_empty (s : string) : bool := negb (String.eqb s "").

Definition all_space (s : string) : bool := all_chars PyStr.isspace s.

(** The arguments [port_scan] gives to nmap. *)
Definition nmap_arguments (t : Scan.scan_type) (include_version_info : bool)
  : string :=
  (if include_version_info then "-sV " else "")
    ++ match t with
       | Scan.UDP => "-sU"
       | _ => "-sT"
       end.

(** A set that yields each member once, at its last occurrence. *)
Definition sample_set_order (l : list string) : list string :=
  nodup string_dec l.

(** A machine without amass. *)
Definition exec_not_found (argv : list string)
  : result (Z * Async.bytes * Async.bytes) :=
  inl (FileNotFoundError "[Errno 2] No such file or directory: 'amass'").

(* ================================================================== *)
(** * Part II: properties *)
(* ================================================================== *)

(** ** Text: prefixes and occurrences *)
Section TextFacts.
Import PyStr.

Lemma append_empty_r (s : string) : s ++ "" = s.
Proof. induction s as [|c s IH]; simpl; [reflexivity | now rewrite IH]. Qed.

Lemma append_assoc (a b c : string) : (a ++ b) ++ c = a ++ (b ++ c).
Proof. induction a as [|x a IH]; simpl; [reflexivity | now rewrite IH]. Qed.

Lemma startswith_spec (s p : string) :
  startswith s p = true <-> exists r, s = p ++ r.
Proof.
  revert s; induction p as [|b p IH]; intros s; simpl.
  - split; [intros _; now exists s | reflexivity].
  - destruct s as [|a s].
    + split; [discriminate | intros [r H]; discriminate].
    + rewrite andb_true_iff, Ascii.eqb_eq, IH. split.
      * intros [-> [r ->]]. now exists r.
      * intros [r H]. injection H as -> ->. split; [reflexivity | now exists r].
Qed.

Lemma contains_spec (needle hay : string) :
  contains needle hay = true <-> occurs needle hay.
Proof.
  induction hay as [|c hay IH].
  - simpl. rewrite orb_false_r, startswith_spec. split.
    + intros [r H]. now exists "", r.
    + intros [pre [post H]]. destruct pre; simpl in H.
      * now exists post.
      * discriminate.
  - cbn [contains]. rewrite orb_true_iff, startswith_spec, IH. split.
    + intros [[r H] | [pre [post H]]].
      * now exists "", r.
      * exists (String c pre), post. simpl. now rewrite H.
    + intros [pre [post H]]. destruct pre as [|x pre]; simpl in H.
      * left. now exists post.
      * right. injection H as _ H. now exists pre, post.
Qed.

Lemma occurs_refl (a : string) : occurs a a.
Proof. exists "", "". simpl. now rewrite append_empty_r. Qed.

Lemma occurs_trans (a b c : string) : occurs a b -> occurs b c -> occurs a c.
Proof.
  intros [p1 [q1 ->]] [p2 [q2 ->]].
  exists (p2 ++ p1), (q1 ++ q2). now rewrite !append_assoc.
Qed.

Lemma occurs_prefix (a r : string) : occurs a (a ++ r).
Proof. now exists "", r. Qed.

Lemma occurs_cons (a b : string) (c : ascii) :
  occurs a b -> occurs a (String c b).
Proof. intros [p [q ->]]. now exists (String c p), q. Qed.

End TextFacts.

(** ** The tokenizer on text without quoting *)
Section ShlexFacts.
Import Shlex.

(** Reading plain text outside quotes, every token is either cut out of
    the text that was still to read or is the token in hand extended by
    the beginning of that text. *)
Lemma tokens_plain (s : string) :
  forall st token quoted l,
    plain s = true -> outside st ->
    tokens s st token quoted = inr l ->
    forall t, In t l ->
      occurs t s \/ exists p r, s = p ++ r /\ t = token ++ p.
Proof.
  induction s as [|c rest IH]; intros st token quoted l Hp Hst Ht t Hin.
  - right. exists "", "". split; [reflexivity|].
    rewrite append_empty_r.
    destruct Hst as [-> | ->]; simpl in Ht; injection Ht as <-;
      unfold emit in Hin;
      destruct (quoted || negb (String.eqb token "")); simpl in Hin;
      intuition congruence.
  - simpl in Hp. apply andb_true_iff in Hp as [Hqe Hp].
    apply andb_true_iff in Hqe as [Hq He].
    apply negb_true_iff in Hq, He.
    assert (Hflush : forall l',
               (match tokens rest InSpace "" false with
                | inl e => inl e
                | inr l0 => inr (token :: l0)
                end) = inr l' -> In t l' ->
               occurs t (String c rest) \/
               exists p r, String c rest = p ++ r /\ t = token ++ p).
    { intros l' H Hin'.
      destruct (tokens rest InSpace "" false) as [e | l0] eqn:E;
        [discriminate|]. injection H as <-.
      destruct Hin' as [<- | Hin'].
      - right. exists "", (String c rest). now rewrite append_empty_r.
      - left. apply occurs_cons.
        destruct (IH InSpace "" false l0 Hp (or_introl eq_refl) E t Hin')
          as [H | [p [r [-> ->]]]]; [exact H | apply occurs_prefix]. }
    assert (Hskip : forall q' l',
               quoted || negb (String.eqb token "") = false ->
               tokens rest InSpace token q' = inr l' -> In t l' ->
               occurs t (String c rest) \/
               exists p r, String c rest = p ++ r /\ t = token ++ p).
    { intros q' l' Hq' H Hin'.
      apply orb_false_iff in Hq' as [_ Hq'].
      apply negb_false_iff, String.eqb_eq in Hq'. subst token.
      left. apply occurs_cons.
      destruct (IH InSpace "" q' l' Hp (or_introl eq_refl) H t Hin')
        as [H1 | [p [r [-> ->]]]]; [exact H1 | apply occurs_prefix]. }
    assert (Hgrow : forall token' q' l',
               tokens rest InWord (token' ++ String c "") q' = inr l' ->
               In t l' -> (token' = token \/ token' = "") ->
               occurs t (String c rest) \/
               exists p r, String c rest = p ++ r /\ t = token ++ p).
    { intros token' q' l' H Hin' Htok.
      destruct (IH InWord _ q' l' Hp (or_intror eq_refl) H t Hin')
        as [H1 | [p [r [-> ->]]]].
      - left. now apply occurs_cons.
      - destruct Htok as [-> | ->].
        + right. exists (String c p), r. split; [reflexivity|].
          now rewrite append_assoc.
        + left. exists "", r. reflexivity. }
    destruct Hst as [-> | ->]; cbn [tokens] in Ht;
      rewrite He, Hq in Ht; revert Ht;
      destruct (is_whitespace c);
      try (destruct (quoted || negb (String.eqb token "")) eqn:Hqt;
           intros Ht; [eapply Hflush | eapply Hskip];
           first [eassumption | reflexivity]);
      intros Ht.
    + eapply (Hgrow ""); [exact Ht | exact Hin | now right].
    + eapply (Hgrow token); [exact Ht | exact Hin | now left].
Qed.

(** On plain text that splits, every token occurs in the text. *)
Lemma split_plain_occurs (s : string) (l : list string) :
  plain s = true -> split s = inr l ->
  forall t, In t l -> occurs t s.
Proof.
  intros Hp Hs t Hin.
  destruct (tokens_plain s InSpace "" false l Hp (or_introl eq_refl) Hs t Hin)
    as [H | [p [r [-> ->]]]]; [exact H | apply occurs_prefix].
Qed.

(** Plain text always splits. *)
Lemma tokens_plain_total (s : string) :
  forall st token quoted,
    plain s = true -> outside st ->
    exists l, tokens s st token quoted = inr l.
Proof.
  induction s as [|c rest IH]; intros st token quoted Hp Hst.
  - destruct Hst as [-> | ->]; simpl; eauto.
  - simpl in Hp. apply andb_true_iff in Hp as [Hqe Hp].
    apply andb_true_iff in Hqe as [Hq He].
    apply negb_true_iff in Hq, He.
    destruct (IH InSpace "" false Hp (or_introl eq_refl)) as [l0 E0].
    destruct Hst as [-> | ->]; cbn [tokens]; rewrite He, Hq, E0;
      destruct (is_whitespace c);
      try destruct (quoted || negb (String.eqb token ""));
      eauto; apply IH; auto; unfold outside; auto.
Qed.

(** White space alone gives no token. *)
Lemma tokens_blank (s : string) :
  blank s = true -> tokens s InSpace "" false = inr [].
Proof.
  induction s as [|c rest IH]; intros Hb; [reflexivity|].
  simpl in Hb. apply andb_true_iff in Hb as [Hc Hb].
  cbn [tokens]. rewrite Hc. simpl. now apply IH.
Qed.

End ShlexFacts.

(** ** The command sanitizer *)
Section SanitizerFacts.
Import PyStr Sanitizer.

Lemma part_matches_occurs (part dc : string) :
  part_matches part dc = true -> occurs dc part.
Proof.
  unfold part_matches. rewrite orb_true_iff, String.eqb_eq, startswith_spec.
  intros [-> | [r ->]].
  - apply occurs_refl.
  - rewrite append_assoc. apply occurs_prefix.
Qed.

Lemma parts_dangerous_spec (parts : list string) :
  parts_dangerous parts = true <->
  exists part dc, In part parts /\ In dc dangerous_commands /\
                  part_matches part dc = true.
Proof.
  unfold parts_dangerous, any. rewrite existsb_exists. split.
  - intros [part [Hin H]]. apply existsb_exists in H as [dc [Hdc H]].
    now exists part, dc.
  - intros [part [dc [Hin [Hdc H]]]]. exists part. split; [exact Hin|].
    apply existsb_exists. now exists dc.
Qed.

Lemma text_dangerous_spec (command : string) :
  text_dangerous command = true <->
  exists dc, In dc dangerous_commands /\ occurs dc command.
Proof.
  unfold text_dangerous, any. rewrite existsb_exists.
  split; intros [dc [Hin H]]; exists dc; split; try exact Hin;
    now apply contains_spec.
Qed.

(** The sanitizer returns its argument or raises the [ValueError] of the
    text check; it raises exactly when the body of the [try] raised and
    the text check finds a dangerous command. *)
Lemma sanitize_cases (command : string) :
  (_sanitize_command command = inr command /\
   (tokenized_check command = inr tt \/ text_dangerous command = false))
  \/
  (_sanitize_command command = inl (ValueError msg_text) /\
   tokenized_check command <> inr tt /\ text_dangerous command = true).
Proof.
  unfold _sanitize_command.
  destruct (tokenized_check command) as [e | []] eqn:E.
  - destruct (text_dangerous command) eqn:T.
    + right. repeat split; congruence.
    + left. split; [reflexivity | now right].
  - left. split; [reflexivity | now left].
Qed.

Lemma sanitize_accepts_iff (command : string) :
  _sanitize_command command = inr command <->
  (tokenized_check command = inr tt \/ text_dangerous command = false).
Proof.
  destruct (sanitize_cases command) as [[H1 H2] | [H1 [H2 H3]]].
  - tauto.
  - split; [congruence|]. intros [H | H]; congruence.
Qed.

Lemma tokenized_check_passes (command : string) (parts : list string) :
  Shlex.split command = inr parts -> parts_dangerous parts = false ->
  tokenized_check command = inr tt.
Proof. unfold tokenized_check. now intros -> ->. Qed.

(** On plain text, a dangerous part means a dangerous text. *)
Lemma plain_parts_text (command : string) (parts : list string) :
  plain command = true ->
  Shlex.split command = inr parts ->
  parts_dangerous parts = true ->
  text_dangerous command = true.
Proof.
  intros Hp Hs Hd.
  apply parts_dangerous_spec in Hd as [part [dc [Hin [Hdc Hm]]]].
  apply text_dangerous_spec. exists dc. split; [exact Hdc|].
  apply (occurs_trans dc part command).
  - now apply part_matches_occurs.
  - now apply (split_plain_occurs command parts).
Qed.

(** On plain text the sanitizer rejects every command one of whose parts
    is a dangerous command. *)
Lemma sanitize_rejects_plain_part (command dc : string)
    (parts : list string) :
  plain command = true ->
  Shlex.split command = inr parts ->
  In dc dangerous_commands -> In dc parts ->
  _sanitize_command command = inl (ValueError msg_text).
Proof.
  intros Hp Hs Hdc Hin.
  assert (Hd : parts_dangerous parts = true).
  { apply parts_dangerous_spec. exists dc, dc. repeat split; try assumption.
    unfold part_matches. now rewrite String.eqb_refl. }
  unfold _sanitize_command, tokenized_check. rewrite Hs, Hd.
  now rewrite (plain_parts_text command parts Hp Hs Hd).
Qed.

(** A bash action that is let through starts exactly one shell, on the
    text it was given. *)
Lemma bash_events_accepted
    (run_shell : string -> result (Z * string * string)) (command : string) :
  _sanitize_command command = inr command ->
  events (execute_bash_command run_shell command) = [SpawnShell command].
Proof.
  intros H. unfold execute_bash_command. rewrite H.
  unfold shell, catch, bind, tell, lift, ret, events.
  destruct (run_shell command) as [e | [[rc out] err]]; simpl.
  - reflexivity.
  - destruct (negb (rc =? 0)%Z); reflexivity.
Qed.

Lemma bash_events_rejected
    (run_shell : string -> result (Z * string * string)) (command : string)
    (e : exn) :
  _sanitize_command command = inl e ->
  execute_bash_command run_shell command =
    ([], inr ("Command sanitization failed: " ++ str_of_exn e)).
Proof. intros H. unfold execute_bash_command. now rewrite H. Qed.

End SanitizerFacts.

Section SanitizerClaims.
Import PyStr Sanitizer.

(** C1.  The scenario of the claim holds: [sudo rm -rf /] is rejected
    and the bash action starts no process for it; so does the claim for
    every command without quote and backslash characters one of whose
    parts is a dangerous command.  The general statement does not hold: in
    [r\m -rf /] the tokenizer reads the part [rm], the first check raises,
    the [except] clause takes that exception and, finding no dangerous
    command in the text as written, lets the command through; the bash
    action then starts a shell on it. *)
Theorem sanitize_escaped_rm_let_through :
  _sanitize_command "sudo rm -rf /" = inl (ValueError msg_text) /\
  (forall run_shell,
      events (execute_bash_command run_shell "sudo rm -rf /") = []) /\
  (forall command parts dc run_shell,
      plain command = true -> Shlex.split command = inr parts ->
      In dc dangerous_commands -> In dc parts ->
      _sanitize_command command = inl (ValueError msg_text) /\
      events (execute_bash_command run_shell command) = []) /\
  Shlex.split "r\m -rf /" = inr ["rm"; "-rf"; "/"] /\
  parts_dangerous ["rm"; "-rf"; "/"] = true /\
  tokenized_check "r\m -rf /" = inl (ValueError msg_parts) /\
  _sanitize_command "r\m -rf /" = inr "r\m -rf /" /\
  (forall run_shell,
      events (execute_bash_command run_shell "r\m -rf /")
      = [SpawnShell "r\m -rf /"]).
Proof.
  split; [reflexivity | split; [reflexivity | split]].
  - intros command parts dc run_shell Hp Hs Hdc Hin.
    assert (H := sanitize_rejects_plain_part command dc parts Hp Hs Hdc Hin).
    split; [exact H|].
    now rewrite (bash_events_rejected run_shell command _ H).
  - repeat split; try reflexivity.
    intros run_shell. now apply bash_events_accepted.
Qed.

(** C6, as stated, fails: the parts of ['r'm -rf /tmp/x] are dangerous,
    its text is not. *)
Lemma fallback_misses_quoted_rm :
  Shlex.split "'r'm -rf /tmp/x" = inr ["rm"; "-rf"; "/tmp/x"] /\
  tokenized_check "'r'm -rf /tmp/x" = inl (ValueError msg_parts) /\
  text_dangerous "'r'm -rf /tmp/x" = false.
Proof. repeat split; reflexivity. Qed.

(** C6, amended.  For a command without quote and backslash characters,
    when the tokenized check raises, the text check finds a dangerous
    command too, and the sanitizer rejects the command. *)
Theorem fallback_covers_tokenized_on_plain (command : string) :
  plain command = true ->
  tokenized_check command = inl (ValueError msg_parts) ->
  text_dangerous command = true /\
  _sanitize_command command = inl (ValueError msg_text).
Proof.
  intros Hp Ht.
  assert (Htext : text_dangerous command = true).
  { unfold tokenized_check in Ht.
    destruct (Shlex.split command) as [e | parts] eqn:Es.
    - destruct (tokens_plain_total command Shlex.InSpace "" false Hp
                  (or_introl eq_refl)) as [l Hl].
      unfold Shlex.split in Es. congruence.
    - destruct (parts_dangerous parts) eqn:Ed; [|discriminate].
      now apply (plain_parts_text command parts). }
  split; [exact Htext|].
  unfold _sanitize_command. now rewrite Ht, Htext.
Qed.

Lemma fallback_covers_tokenized_on_plain_witness :
  plain "sudo ls" = true /\
  tokenized_check "sudo ls" = inl (ValueError msg_parts) /\
  text_dangerous "sudo ls" = true /\
  _sanitize_command "sudo ls" = inl (ValueError msg_text).
Proof.
  split; [reflexivity | split; [reflexivity|]].
  apply (fallback_covers_tokenized_on_plain "sudo ls"); reflexivity.
Defined.

(** C8.  A command the sanitizer does not reject is returned as it was
    given: either the tokenized check passed or the text holds no
    dangerous command, and the bash action starts one shell, on that
    very text. *)
Theorem sanitize_unrejected_unchanged (command : string) :
  (forall e, _sanitize_command command <> inl e) ->
  _sanitize_command command = inr command /\
  (tokenized_check command = inr tt \/ text_dangerous command = false) /\
  forall run_shell,
    events (execute_bash_command run_shell command) = [SpawnShell command].
Proof.
  intros Hne.
  destruct (sanitize_cases command) as [[H1 H2] | [H1 _]].
  - repeat split; try assumption.
    intros run_shell. now apply bash_events_accepted.
  - now destruct (Hne _ H1).
Qed.

Lemma sanitize_unrejected_unchanged_witness :
  _sanitize_command "ls -la /tmp" = inr "ls -la /tmp" /\
  (tokenized_check "ls -la /tmp" = inr tt \/
   text_dangerous "ls -la /tmp" = false) /\
  forall run_shell,
    events (execute_bash_command run_shell "ls -la /tmp")
    = [SpawnShell "ls -la /tmp"].
Proof.
  apply (sanitize_unrejected_unchanged "ls -la /tmp").
  intros e. vm_compute. discriminate.
Defined.

End SanitizerClaims.

(** ** The Linux command tool *)
Section LinuxCmdFacts.
Import PyStr LinuxCmd.

Variable expanduser : string -> string.
Variable subprocess_run :
  list string -> option string -> Z -> result (Z * string * string).

Local Abbreviation execute := (execute_linux_command expanduser subprocess_run).
Local Abbreviation expand := (expand_part expanduser).

Lemma execute_unfold (command : string) (wd : option string) (t : Z) :
  execute command wd t =
  let (ev, r) := catch (attempt expanduser subprocess_run command wd t)
                       (handler expanduser command t) in
  ((preamble command wd t ++ ev)%list, r).
Proof.
  unfold execute_linux_command, preamble, bind, tell, ret.
  destruct (truthy wd); simpl;
    destruct (catch _ _) as [ev r]; reflexivity.
Qed.

Lemma preamble_no_spawn (command : string) (wd : option string) (t : Z) :
  existsb is_spawn (preamble command wd t) = false.
Proof. unfold preamble. destruct (truthy wd); reflexivity. Qed.

(** The tokenizer raises: the general handler re-raises as [ToolError]. *)
Lemma execute_split_raises (command : string) (wd : option string) (t : Z)
    (m : string) :
  Shlex.split command = inl (ValueError m) ->
  execute command wd t =
    ((preamble command wd t
        ++ [CtxError ("Error executing command '" ++ command ++ "': " ++ m)])%list,
     inl (ToolError (msg_unexpected ++ m))).
Proof.
  intros Hs. rewrite execute_unfold.
  unfold attempt, catch, bind, lift. rewrite Hs. reflexivity.
Qed.

(** No part: the [ToolError] of the empty command is raised inside the
    [try], taken by the general handler and raised again. *)
Lemma execute_no_parts (command : string) (wd : option string) (t : Z) :
  Shlex.split command = inr [] ->
  execute command wd t =
    ((preamble command wd t
        ++ [CtxError ("Error executing command '" ++ command
                        ++ "': Command string cannot be empty.")])%list,
     inl (ToolError (msg_unexpected ++ "Command string cannot be empty."))).
Proof.
  intros Hs. rewrite execute_unfold.
  unfold attempt, catch, bind, lift. rewrite Hs. reflexivity.
Qed.

(** With parts, the child process is started and its end decides. *)
Lemma execute_with_parts (command : string) (wd : option string) (t : Z)
    (p : string) (ps : list string) :
  Shlex.split command = inr (p :: ps) ->
  let argv := map expand (p :: ps) in
  exists ev,
    events (execute command wd t)
      = (preamble command wd t ++ SpawnArgv argv wd t :: ev)%list /\
    existsb is_spawn ev = false /\
    outcome (execute command wd t) =
      match subprocess_run argv wd t with
      | inr (returncode, out, err) =>
          inr {| command := command;
                 return_code := Some returncode;
                 stdout := strip out;
                 stderr := strip err;
                 timed_out := false;
                 error := None |}
      | inl (TimeoutExpired _ _ _) =>
          inr {| command := command;
                 return_code := None;
                 stdout := "";
                 stderr := "Command timed out after " ++ str_of_Z t
                             ++ " seconds.";
                 timed_out := true;
                 error := None |}
      | inl (FileNotFoundError _) =>
          inl (ToolError (msg_not_found ++ expand p))
      | inl e => inl (ToolError (msg_unexpected ++ str_of_exn e))
      end.
Proof.
  intros Hs argv. rewrite execute_unfold.
  unfold attempt, handler. unfold parts_seen, msg_not_found, msg_unexpected.
  unfold catch, bind, lift, run, tell, ret, raise, events, outcome.
  rewrite Hs. cbn [map]. fold argv.
  destruct (subprocess_run _ wd t) as [e | [[rc out] err]] eqn:Er.
  - destruct e; cbn; rewrite ?Hs; eexists; (split; [reflexivity|]);
      split; reflexivity.
  - cbn. eexists. split; [reflexivity|]. split; reflexivity.
Qed.

(** Whatever the tokenizer raises is a [ValueError]. *)
Lemma tokens_raise_value_error (s : string) :
  forall st token quoted e,
    Shlex.tokens s st token quoted = inl e -> exists m, e = ValueError m.
Proof.
  induction s as [|c rest IH]; intros st token quoted e H.
  - destruct st; simpl in H; try discriminate; injection H as <-; eauto.
  - cbn [Shlex.tokens] in H.
    destruct st.
    + destruct (Shlex.is_whitespace c).
      * destruct (quoted || negb (String.eqb token "")); [|eauto].
        destruct (Shlex.tokens rest Shlex.InSpace "" false) eqn:E;
          [injection H as <-; eauto | discriminate].
      * destruct (Shlex.is_escape c); [eauto|].
        destruct (Shlex.is_quote c); eauto.
    + destruct (Shlex.is_whitespace c).
      * destruct (quoted || negb (String.eqb token "")); [|eauto].
        destruct (Shlex.tokens rest Shlex.InSpace "" false) eqn:E;
          [injection H as <-; eauto | discriminate].
      * destruct (Shlex.is_quote c); [eauto|].
        destruct (Shlex.is_escape c); eauto.
    + destruct (Ascii.eqb c q); [eauto|].
      destruct (Shlex.is_escape c && Shlex.is_escapedquote q); eauto.
    + eauto.
Qed.

End LinuxCmdFacts.

(** ** Which commands have no part *)
Section EmptyArgv.
Import Shlex.

Lemma snoc_not_empty (token : string) (c : ascii) : snoc token c <> "".
Proof. unfold snoc. destruct token; discriminate. Qed.

(** Once a quote was opened, an escape was read or the token in hand is
    not empty, the reader does not end with an empty list. *)
Lemma tokens_not_nil (s : string) :
  forall st token quoted,
    (outside st -> quoted = true \/ token <> "") ->
    tokens s st token quoted <> inr [].
Proof.
  induction s as [|c rest IH]; intros st token quoted Hst.
  - destruct st; simpl; try discriminate;
      (destruct Hst as [-> | Hne]; [unfold outside; auto | |]);
      unfold emit; try discriminate;
      (destruct (String.eqb_spec token ""); [contradiction|]);
      rewrite orb_true_r; discriminate.
  - assert (Hflag : outside st -> quoted || negb (String.eqb token "") = true).
    { intros Ho. destruct (Hst Ho) as [-> | Hne]; [reflexivity|].
      destruct (String.eqb_spec token ""); [contradiction|].
      apply orb_true_r. }
    assert (Hin : forall st' tk q', ~ outside st' ->
                    tokens rest st' tk q' <> inr []).
    { intros st' tk q' Hno. apply IH. intros Ho. contradiction. }
    assert (Hq : forall q, ~ outside (InQuote q)).
    { intros q [H | H]; discriminate. }
    assert (He : forall es, ~ outside (InEscape es)).
    { intros es [H | H]; discriminate. }
    cbn [tokens]. destruct st.
    + rewrite (Hflag (or_introl eq_refl)).
      destruct (is_whitespace c).
      * destruct (tokens rest InSpace "" false); discriminate.
      * destruct (is_escape c); [now apply Hin|].
        destruct (is_quote c); [now apply Hin|].
        apply IH. intros _. right. discriminate.
    + rewrite (Hflag (or_intror eq_refl)).
      destruct (is_whitespace c).
      * destruct (tokens rest InSpace "" false); discriminate.
      * destruct (is_quote c); [now apply Hin|].
        destruct (is_escape c); [now apply Hin|].
        apply IH. intros _. right. apply snoc_not_empty.
    + destruct (Ascii.eqb c q); [apply IH; auto|].
      destruct (is_escape c && is_escapedquote q); now apply Hin.
    + apply IH. intros _. right. apply snoc_not_empty.
Qed.

(** A command has no part exactly when it is white space only. *)
Lemma split_nil_iff_blank (s : string) :
  split s = inr [] <-> blank s = true.
Proof.
  split; [|apply tokens_blank].
  unfold split. induction s as [|c rest IH]; [reflexivity|].
  cbn [tokens blank]. simpl (false || negb (String.eqb "" "")).
  destruct (is_whitespace c); [exact IH|].
  intros H. exfalso. revert H.
  destruct (is_escape c); [|destruct (is_quote c)];
    apply tokens_not_nil; intros [Ho | Ho];
    try discriminate; right; discriminate.
Qed.

End EmptyArgv.

Section LinuxCmdClaims.
Import PyStr LinuxCmd.

Variable expanduser : string -> string.
Variable subprocess_run :
  list string -> option string -> Z -> result (Z * string * string).

Local Abbreviation execute :=
  (execute_linux_command expanduser subprocess_run).
Local Abbreviation expand := (expand_part expanduser).

(** The only exception that leaves [execute_linux_command] is
    [ToolError]. *)
Lemma execute_raises_only_tool_error (command : string)
    (wd : option string) (t : Z) (e : exn) :
  outcome (execute command wd t) = inl e -> exists m, e = ToolError m.
Proof.
  destruct (Shlex.split command) as [e0 | [|p ps]] eqn:Hs.
  - destruct (tokens_raise_value_error _ _ _ _ _ Hs) as [m ->].
    rewrite (execute_split_raises _ _ _ _ _ m Hs). cbn.
    intros H; injection H as <-; eauto.
  - rewrite (execute_no_parts _ _ _ _ _ Hs). cbn.
    intros H; injection H as <-; eauto.
  - destruct (execute_with_parts expanduser subprocess_run _ wd t _ _ Hs)
      as [ev [_ [_ ->]]].
    destruct (subprocess_run _ wd t) as [[] | [[rc out] err]];
      intros H; try discriminate; injection H as <-; eauto.
Qed.

(** C3, amended.  When the child process runs past the time limit the
    tool returns an envelope with [timed_out] set and no return code;
    the output of the child is dropped, [stdout] is empty and [stderr]
    holds the message of the tool. *)
Theorem timeout_envelope (command : string) (wd : option string) (t : Z)
    (p : string) (ps : list string) (m partial_out partial_err : string) :
  Shlex.split command = inr (p :: ps) ->
  subprocess_run (map expand (p :: ps)) wd t
    = inl (TimeoutExpired m partial_out partial_err) ->
  outcome (execute command wd t) =
    inr {| command := command;
           return_code := None;
           stdout := "";
           stderr := "Command timed out after " ++ str_of_Z t ++ " seconds.";
           timed_out := true;
           error := None |}.
Proof.
  intros Hs Hr.
  destruct (execute_with_parts expanduser subprocess_run _ wd t _ _ Hs)
    as [ev [_ [_ ->]]].
  now rewrite Hr.
Qed.

(** An envelope comes back only from a command with parts whose child
    process ended, or ran past the time limit. *)
Lemma envelope_only_from_end_or_timeout (command : string)
    (wd : option string) (t : Z) (env : envelope) :
  outcome (execute command wd t) = inr env ->
  exists p ps,
    Shlex.split command = inr (p :: ps) /\
    match subprocess_run (map expand (p :: ps)) wd t with
    | inr _ => timed_out env = false
    | inl e =>
        timed_out env = true /\ exists m o s, e = TimeoutExpired m o s
    end.
Proof.
  destruct (Shlex.split command) as [e0 | [|p ps]] eqn:Hs.
  - destruct (tokens_raise_value_error _ _ _ _ _ Hs) as [m ->].
    rewrite (execute_split_raises _ _ _ _ _ m Hs). discriminate.
  - rewrite (execute_no_parts _ _ _ _ _ Hs). discriminate.
  - destruct (execute_with_parts expanduser subprocess_run _ wd t _ _ Hs)
      as [ev [_ [_ ->]]].
    intros H. exists p, ps. split; [reflexivity|].
    destruct (subprocess_run _ wd t) as [[] | [[rc out] err]];
      try discriminate; injection H as <-; cbn [timed_out]; eauto 6.
Qed.

(** C4, amended.  Of the errors of an invocation only a time-out is
    returned as an envelope.  When [subprocess.run] raises, a time-out
    gives the envelope with [timed_out] set; a missing executable is
    raised past the tool as a [ToolError] with a message of its own that
    names the first part of the command; every other exception is raised
    as the [ToolError] of an unexpected error, with the text of the
    exception.  A command the tokenizer cannot read is raised in that
    same way.  So an envelope comes back only from a child process that
    ended or ran past the time limit, and whatever the tool raises is a
    [ToolError]. *)
Theorem invocation_errors_are_raised (command : string)
    (wd : option string) (t : Z) (p : string) (ps : list string)
    (e : exn) :
  Shlex.split command = inr (p :: ps) ->
  subprocess_run (map expand (p :: ps)) wd t = inl e ->
  outcome (execute command wd t) =
    match e with
    | TimeoutExpired _ _ _ =>
        inr {| command := command;
               return_code := None;
               stdout := "";
               stderr := "Command timed out after " ++ str_of_Z t
                           ++ " seconds.";
               timed_out := true;
               error := None |}
    | FileNotFoundError _ => inl (ToolError (msg_not_found ++ expand p))
    | _ => inl (ToolError (msg_unexpected ++ str_of_exn e))
    end /\
  (forall env,
      outcome (execute command wd t) = inr env ->
      timed_out env = true /\ exists m o s, e = TimeoutExpired m o s) /\
  (forall command' wd' t' m,
      Shlex.split command' = inl (ValueError m) ->
      outcome (execute command' wd' t')
        = inl (ToolError (msg_unexpected ++ m))) /\
  (forall command' wd' t' env,
      outcome (execute command' wd' t') = inr env ->
      exists p' ps',
        Shlex.split command' = inr (p' :: ps') /\
        match subprocess_run (map expand (p' :: ps')) wd' t' with
        | inr _ => timed_out env = false
        | inl e' =>
            timed_out env = true /\ exists m o s, e' = TimeoutExpired m o s
        end) /\
  (forall command' wd' t' e',
      outcome (execute command' wd' t') = inl e' ->
      exists m', e' = ToolError m').
Proof.
  intros Hs Hr.
  assert (E : outcome (execute command wd t) =
    match e with
    | TimeoutExpired _ _ _ =>
        inr {| command := command;
               return_code := None;
               stdout := "";
               stderr := "Command timed out after " ++ str_of_Z t
                           ++ " seconds.";
               timed_out := true;
               error := None |}
    | FileNotFoundError _ => inl (ToolError (msg_not_found ++ expand p))
    | _ => inl (ToolError (msg_unexpected ++ str_of_exn e))
    end).
  { destruct (execute_with_parts expanduser subprocess_run _ wd t _ _ Hs)
      as [ev [_ [_ ->]]].
    rewrite Hr. destruct e; reflexivity. }
  split; [exact E | split; [|split; [|split]]].
  - intros env H. rewrite E in H.
    destruct e; try discriminate. injection H as <-.
    cbn [timed_out]. eauto.
  - intros command' wd' t' m H.
    now rewrite (execute_split_raises _ _ _ _ _ m H).
  - intros command' wd' t' env. apply envelope_only_from_end_or_timeout.
  - intros command' wd' t' e'. apply execute_raises_only_tool_error.
Qed.

(** C10.  A command that is empty, or that the tokenizer splits into no
    part, ends in a [ToolError] whose message says that the command
    string cannot be empty, and no child process is started. *)
Theorem empty_command_is_tool_error (command : string)
    (wd : option string) (t : Z) :
  command = "" \/ Shlex.split command = inr [] ->
  outcome (execute command wd t)
    = inl (ToolError (msg_unexpected ++ "Command string cannot be empty.")) /\
  contains "Command string cannot be empty."
           (msg_unexpected ++ "Command string cannot be empty.") = true /\
  existsb is_spawn (events (execute command wd t)) = false.
Proof.
  intros H.
  assert (Hs : Shlex.split command = inr []).
  { destruct H as [-> | H]; [reflexivity | exact H]. }
  rewrite (execute_no_parts _ _ _ _ _ Hs). cbn [outcome events fst snd].
  split; [reflexivity | split; [reflexivity|]].
  rewrite existsb_app, preamble_no_spawn. reflexivity.
Qed.

End LinuxCmdClaims.

Section LinuxCmdExamples.
Import PyStr LinuxCmd.

(** C3, as stated, fails: after a time-out the [stderr] of the envelope is
    not empty, it carries the message of the tool. *)
Lemma timeout_stderr_not_empty :
  outcome (execute_linux_command sample_expanduser run_times_out
             "sleep 5" None 1)
  = inr {| command := "sleep 5";
           return_code := None;
           stdout := "";
           stderr := "Command timed out after 1 seconds.";
           timed_out := true;
           error := None |}
  /\ "Command timed out after 1 seconds." <> "".
Proof. split; [reflexivity | discriminate]. Qed.

Lemma timeout_envelope_witness :
  outcome (execute_linux_command sample_expanduser run_times_out
             "sleep 5" None 1)
  = inr {| command := "sleep 5";
           return_code := None;
           stdout := "";
           stderr := "Command timed out after " ++ str_of_Z 1 ++ " seconds.";
           timed_out := true;
           error := None |}.
Proof.
  apply (timeout_envelope sample_expanduser run_times_out "sleep 5" None 1
           "sleep" ["5"] "Command timed out" "progress: 40%"
           "warning: slow link"); reflexivity.
Defined.

(** C4, as stated, fails: a missing executable is not returned as an
    envelope, the tool raises. *)
Lemma missing_executable_is_raised :
  outcome (execute_linux_command sample_expanduser run_not_found
             "nosuchtool --version" None 60)
  = inl (ToolError "Command or one of its components not found: nosuchtool").
Proof. reflexivity. Qed.

Lemma invocation_errors_are_raised_witness :
  outcome (execute_linux_command sample_expanduser run_not_found
             "~/bin/scan -v" (Some "/tmp") 30)
  = inl (ToolError (msg_not_found ++ "/home/operator/bin/scan")) /\
  (forall env,
      outcome (execute_linux_command sample_expanduser run_not_found
                 "~/bin/scan -v" (Some "/tmp") 30) = inr env ->
      timed_out env = true /\
      exists m o s,
        FileNotFoundError "[Errno 2] No such file or directory: 'nosuchtool'"
        = TimeoutExpired m o s) /\
  (forall command' wd' t' m,
      Shlex.split command' = inl (ValueError m) ->
      outcome (execute_linux_command sample_expanduser run_not_found
                 command' wd' t')
        = inl (ToolError (msg_unexpected ++ m))) /\
  (forall command' wd' t' env,
      outcome (execute_linux_command sample_expanduser run_not_found
                 command' wd' t') = inr env ->
      exists p' ps',
        Shlex.split command' = inr (p' :: ps') /\
        match run_not_found (map (expand_part sample_expanduser) (p' :: ps'))
                wd' t' with
        | inr _ => timed_out env = false
        | inl e' =>
            timed_out env = true /\ exists m o s, e' = TimeoutExpired m o s
        end) /\
  (forall command' wd' t' e',
      outcome (execute_linux_command sample_expanduser run_not_found
                 command' wd' t') = inl e' ->
      exists m', e' = ToolError m').
Proof.
  apply (invocation_errors_are_raised sample_expanduser run_not_found
           "~/bin/scan -v" (Some "/tmp") 30 "~/bin/scan" ["-v"]
           (FileNotFoundError
              "[Errno 2] No such file or directory: 'nosuchtool'"));
    reflexivity.
Defined.

Lemma empty_command_is_tool_error_witness :
  outcome (execute_linux_command sample_expanduser run_not_found "   " None 60)
  = inl (ToolError (msg_unexpected ++ "Command string cannot be empty.")) /\
  contains "Command string cannot be empty."
           (msg_unexpected ++ "Command string cannot be empty.") = true /\
  existsb is_spawn
    (events (execute_linux_command sample_expanduser run_not_found
               "   " None 60)) = false.
Proof.
  apply (empty_command_is_tool_error sample_expanduser run_not_found
           "   " None 60).
  right. reflexivity.
Defined.

End LinuxCmdExamples.

(** ** Running a DevTools script *)
Section DevtoolsFacts.
Import PyStr Devtools.

Variable path_exists : string -> bool.
Variable subprocess_run :
  list string -> string -> Z -> result (Z * string * string).
Variable json_loads : string -> loads_outcome.
Variable py_str : json -> string.
Variable not_iterable : json -> string.
Variable bad_subscript : json -> string.

Local Abbreviation script :=
  (_execute_devtools_script path_exists subprocess_run json_loads py_str
     not_iterable bad_subscript).
Local Abbreviation installed := (installed path_exists).
Local Abbreviation completed := (completed subprocess_run).

(** What the handlers of the outer [try] return is a dictionary. *)
Lemma handlers_dump (script_name url : string) (e : exn) :
  exists d,
    match e with
    | TimeoutExpired _ _ _ =>
        Dumps [ ("error", "Timeout executing " ++ script_name
                            ++ " for URL: " ++ url) ]
    | FileNotFoundError _ =>
        Dumps [ ("error", "Node.js executable ('" ++ NODE_EXECUTABLE
                   ++ "') not found. Please ensure Node.js is installed and in your PATH.") ]
    | _ =>
        Dumps [ ("error", "Python error calling " ++ script_name ++ ": "
                            ++ str_of_exn e) ]
    end = Dumps d.
Proof. destruct e; eexists; reflexivity. Qed.

(** A completed run with exit code zero: the decoder decides. *)
Lemma script_zero_exit (script_name url stdout stderr : string) :
  installed script_name -> completed script_name url 0 stdout stderr ->
  script script_name url =
    match json_loads (strip stdout) with
    | Decoded _ => Output (strip stdout)
    | JSONDecodeError _ =>
        Dumps [ ("error", "Non-JSON output received from " ++ script_name);
                ("raw_output", strip stdout) ]
    | LoadsRaises e =>
        match e with
        | TimeoutExpired _ _ _ =>
            Dumps [ ("error", "Timeout executing " ++ script_name
                                ++ " for URL: " ++ url) ]
        | FileNotFoundError _ =>
            Dumps [ ("error", "Node.js executable ('" ++ NODE_EXECUTABLE
                       ++ "') not found. Please ensure Node.js is installed and in your PATH.") ]
        | _ =>
            Dumps [ ("error", "Python error calling " ++ script_name ++ ": "
                                ++ str_of_exn e) ]
        end
    end.
Proof.
  intros [H1 H2] Hc. unfold _execute_devtools_script, completed in *.
  rewrite H1, H2. cbn [negb]. unfold run_script. rewrite Hc.
  cbn [Z.eqb negb].
  destruct (json_loads (strip stdout)) as [v | m | e]; try reflexivity.
Qed.

(** A completed run with another exit code returns a dictionary. *)
Lemma script_nonzero_exit (script_name url stdout stderr : string)
    (returncode : Z) :
  installed script_name ->
  completed script_name url returncode stdout stderr ->
  returncode <> 0%Z ->
  exists d, script script_name url = Dumps d.
Proof.
  intros [H1 H2] Hc Hrc. unfold _execute_devtools_script, completed in *.
  rewrite H1, H2. cbn [negb]. unfold run_script. rewrite Hc.
  apply Z.eqb_neq in Hrc. rewrite Hrc. cbn [negb].
  destruct (stdout_error _ _ _ _ _ _ _ _) as [e | [d |]].
  - apply handlers_dump.
  - eexists; reflexivity.
  - eexists; reflexivity.
Qed.

(** C5, amended.  For a run that completes, the result is a success
    exactly when the exit code is zero and the stripped output decodes as
    JSON; so a success has exit code zero, while exit code zero with
    output that does not decode is a failure. *)
Theorem success_iff_zero_exit_and_json (script_name url stdout stderr : string)
    (returncode : Z) :
  installed script_name ->
  completed script_name url returncode stdout stderr ->
  (status_of (script script_name url) = Success <->
   returncode = 0%Z /\ exists v, json_loads (strip stdout) = Decoded v).
Proof.
  intros Hi Hc. destruct (Z.eq_dec returncode 0) as [-> | Hrc].
  - rewrite (script_zero_exit _ _ _ _ Hi Hc).
    destruct (json_loads (strip stdout)) as [v | m | e].
    + split; [intros _; split; eauto | reflexivity].
    + split; [discriminate | intros [_ [v H]]; discriminate].
    + destruct (handlers_dump script_name url e) as [d ->].
      split; [discriminate | intros [_ [v H]]; discriminate].
  - destruct (script_nonzero_exit _ _ _ _ _ Hi Hc Hrc) as [d ->].
    split; [discriminate | intros [H _]; contradiction].
Qed.

(** C7, amended.  When the exit code is zero and [json.loads] answers the
    stripped output with [JSONDecodeError], the result is a failure whose
    [error] says that the output is not JSON and whose [raw_output] is the
    output with the white space at both ends removed. *)
Theorem non_json_output_kept_stripped (script_name url stdout stderr m : string) :
  installed script_name ->
  completed script_name url 0 stdout stderr ->
  json_loads (strip stdout) = JSONDecodeError m ->
  script script_name url =
    Dumps [ ("error", "Non-JSON output received from " ++ script_name);
            ("raw_output", strip stdout) ] /\
  status_of (script script_name url) = Failed /\
  field "raw_output" (script script_name url) = Some (strip stdout).
Proof.
  intros Hi Hc Hj. rewrite (script_zero_exit _ _ _ _ Hi Hc), Hj.
  repeat split.
Qed.

End DevtoolsFacts.

Section DevtoolsExamples.
Import PyStr Devtools.

Local Abbreviation sample_script :=
  (_execute_devtools_script sample_exists run_prints_text sample_loads
     sample_str sample_type_error sample_type_error).

(** C5, as stated, fails: the run completes with exit code zero and the
    result is a failure. *)
Lemma zero_exit_non_json_fails :
  run_prints_text
    [NODE_EXECUTABLE; "./devtool-scripts/get_network_data.js";
     "https://example.com"] DEVTOOLS_SCRIPTS_DIR 90
  = inr (0%Z, "Navigation done" ++ nl, "") /\
  sample_script "get_network_data.js" "https://example.com"
  = Dumps [ ("error", "Non-JSON output received from get_network_data.js");
            ("raw_output", "Navigation done") ] /\
  status_of (sample_script "get_network_data.js" "https://example.com")
  = Failed.
Proof. repeat split. Qed.

Lemma success_iff_zero_exit_and_json_witness :
  status_of (sample_script "get_network_data.js" "https://example.com")
    = Success <->
  0%Z = 0%Z /\
  exists v, sample_loads (strip ("Navigation done" ++ nl)) = Decoded v.
Proof.
  apply (success_iff_zero_exit_and_json sample_exists run_prints_text
           sample_loads sample_str sample_type_error sample_type_error
           "get_network_data.js" "https://example.com"
           ("Navigation done" ++ nl) "" 0).
  - split; reflexivity.
  - reflexivity.
Defined.

(** C7, as stated, fails: what is kept under [raw_output] is not the
    output as the script wrote it, the line feed at its end is gone. *)
Lemma raw_output_is_stripped :
  field "raw_output"
    (sample_script "get_console_logs.js" "https://example.com")
  = Some "Navigation done" /\
  "Navigation done" <> "Navigation done" ++ nl.
Proof. split; [reflexivity | discriminate]. Qed.

Lemma non_json_output_kept_stripped_witness :
  sample_script "get_console_logs.js" "https://example.com" =
    Dumps [ ("error", "Non-JSON output received from " ++ "get_console_logs.js");
            ("raw_output", strip ("Navigation done" ++ nl)) ] /\
  status_of (sample_script "get_console_logs.js" "https://example.com")
    = Failed /\
  field "raw_output"
    (sample_script "get_console_logs.js" "https://example.com")
    = Some (strip ("Navigation done" ++ nl)).
Proof.
  apply (non_json_output_kept_stripped sample_exists run_prints_text
           sample_loads sample_str sample_type_error sample_type_error
           "get_console_logs.js" "https://example.com"
           ("Navigation done" ++ nl) ""
           "Expecting value: line 1 column 1 (char 0)").
  - split; reflexivity.
  - reflexivity.
  - reflexivity.
Defined.

End DevtoolsExamples.

(** ** Orchestration *)
Section OrchestrationClaims.
Import PyStr Orchestration.

Lemma all_chars_app (p : ascii -> bool) (a b : string) :
  all_chars p (a ++ b) = all_chars p a && all_chars p b.
Proof.
  induction a as [|c a IH]; simpl; [reflexivity|].
  now rewrite IH, andb_assoc.
Qed.

(** A call served with a context that has no [client]: the message is
    sent, the evaluation of [ctx.client] raises, and neither the task nor
    the reply follows. *)
Lemma start_without_client (ctx : Context) (scope name : string)
    (p : profile) :
  client ctx = None ->
  start_full_assessment ctx scope name p =
    ([CtxInfo ("Starting full assessment '" ++ name ++ "' for " ++ scope)],
     inl (AttributeError "'Context' object has no attribute 'client'")).
Proof.
  intros H. unfold start_full_assessment, ctx_client. rewrite H.
  reflexivity.
Qed.

(** A call served with a context that has a [client]: the message, the
    task, and the reply with the derived identifier. *)
Lemma start_with_client (ctx : Context) (c : Client) (scope name : string)
    (p : profile) :
  client ctx = Some c ->
  start_full_assessment ctx scope name p =
    ([CtxInfo ("Starting full assessment '" ++ name ++ "' for " ++ scope);
      CreateTask "ReconnaissanceTools.subdomain_enumeration"
                 [("target_domain", scope)]],
     inr {| assessment_id :=
              "ASMT_" ++ upper (replace_char " " "_" name) ++ "_"
                ++ upper (profile_str p);
            status := "initiated";
            reply_profile := p |}).
Proof.
  intros H. unfold start_full_assessment, ctx_client. rewrite H.
  reflexivity.
Qed.

(** C2.  Served with the context of FastMCP, the call of the scenario
    (scope [example.com], name [Test Run], profile [quick_recon]) sends its
    message and then raises [AttributeError] where it evaluates
    [ctx.client]: it returns neither the identifier
    [ASMT_TEST_RUN_QUICK_RECON] nor the status [initiated], and so does
    every other call, without a task handed to the event loop.  The
    identifier is derived all the same, and returned as the claim says by
    a context that does have a [client]: [ASMT_], the name with every space
    replaced by an underscore and in upper case, an underscore, and the
    profile in upper case, with the status [initiated]. *)
Theorem start_full_assessment_raises_on_ctx_client :
  start_full_assessment fastmcp_context "example.com" "Test Run" quick_recon =
    ([CtxInfo "Starting full assessment 'Test Run' for example.com"],
     inl (AttributeError "'Context' object has no attribute 'client'")) /\
  (forall scope name p,
      outcome (start_full_assessment fastmcp_context scope name p) =
        inl (AttributeError "'Context' object has no attribute 'client'") /\
      filter is_task
        (events (start_full_assessment fastmcp_context scope name p)) = []) /\
  (forall c scope name p,
      outcome (start_full_assessment {| client := Some c |} scope name p) =
        inr {| assessment_id :=
                 "ASMT_" ++ upper (replace_char " " "_" name) ++ "_"
                   ++ upper (profile_str p);
               status := "initiated";
               reply_profile := p |}) /\
  (forall c,
      outcome (start_full_assessment {| client := Some c |}
                 "example.com" "Test Run" quick_recon) =
        inr {| assessment_id := "ASMT_TEST_RUN_QUICK_RECON";
               status := "initiated";
               reply_profile := quick_recon |}).
Proof.
  split; [reflexivity | split; [|split]].
  - intros scope name p.
    rewrite (start_without_client fastmcp_context scope name p eq_refl).
    split; reflexivity.
  - intros c scope name p.
    now rewrite (start_with_client {| client := Some c |} c scope name p eq_refl).
  - intros c. reflexivity.
Qed.

(** C9, as stated, fails: in a session in which no assessment was started,
    the status of an identifier is reported as in progress. *)
Lemma status_of_unknown_assessment_in_progress :
  started_ids fastmcp_context
    [GetAssessmentStatus "ASMT_GHOST_QUICK_RECON"] = [] /\
  serve fastmcp_context [GetAssessmentStatus "ASMT_GHOST_QUICK_RECON"] =
    [Status {| status_assessment_id := "ASMT_GHOST_QUICK_RECON";
               status_status := "in_progress";
               progress := 50 |}].
Proof. split; reflexivity. Qed.

(** C9, amended.  Whatever calls came before, and whether or not one of
    them started an assessment with this identifier, the status tool
    answers with the identifier it was given, the status [in_progress] and
    the progress 50; no other answer exists. *)
Theorem status_is_a_fixed_record (ctx : Context) (session : list request)
    (id : string) :
  serve ctx (session ++ [GetAssessmentStatus id]) =
    (serve ctx session ++
       [Status {| status_assessment_id := id;
                  status_status := "in_progress";
                  progress := 50 |}])%list /\
  get_assessment_status id =
    ([CtxInfo ("Fetching status for assessment " ++ id)],
     inr {| status_assessment_id := id;
            status_status := "in_progress";
            progress := 50 |}).
Proof.
  split; [|reflexivity].
  unfold serve. rewrite map_app. reflexivity.
Qed.

End OrchestrationClaims.

(* ================================================================== *)
(** * Part III: further properties of the modelled code *)
(* ================================================================== *)

(** ** The tokenizer on plain words *)
Section ShlexWords.
Import Shlex.

Lemma no_ws_snoc (token : string) (c : ascii) :
  no_ws token = true -> is_whitespace c = false ->
  no_ws (snoc token c) = true.
Proof.
  intros Ht Hc. unfold no_ws, snoc in *. rewrite all_chars_app, Ht.
  cbn [all_chars]. now rewrite Hc.
Qed.

(** Reading plain text outside quotes, no token holds white space. *)
Lemma tokens_plain_no_ws (s : string) :
  forall st token quoted l,
    plain s = true -> outside st -> no_ws token = true ->
    tokens s st token quoted = inr l ->
    forall t, In t l -> no_ws t = true.
Proof.
  induction s as [|c rest IH]; intros st token quoted l Hp Hst Htok Ht t Hin.
  - destruct Hst as [-> | ->]; simpl in Ht; injection Ht as <-;
      unfold emit in Hin;
      destruct (quoted || negb (String.eqb token "")); simpl in Hin;
      intuition congruence.
  - simpl in Hp. apply andb_true_iff in Hp as [Hqe Hp].
    apply andb_true_iff in Hqe as [Hq He].
    apply negb_true_iff in Hq, He.
    assert (Hflush : forall l',
               (match tokens rest InSpace "" false with
                | inl e => inl e
                | inr l0 => inr (token :: l0)
                end) = inr l' -> In t l' -> no_ws t = true).
    { intros l' H Hin'.
      destruct (tokens rest InSpace "" false) as [e | l0] eqn:E;
        [discriminate|]. injection H as <-.
      destruct Hin' as [<- | Hin']; [exact Htok|].
      exact (IH InSpace "" false l0 Hp (or_introl eq_refl) eq_refl E t Hin'). }
    destruct Hst as [-> | ->]; cbn [tokens] in Ht;
      rewrite He, Hq in Ht; revert Ht;
      destruct (is_whitespace c) eqn:Hw;
      try (destruct (quoted || negb (String.eqb token ""));
           intros Ht;
           [ eapply Hflush; eassumption
           | exact (IH InSpace token quoted l Hp (or_introl eq_refl)
                       Htok Ht t Hin) ]);
      intros Ht.
    + apply (IH InWord (String c "") quoted l Hp (or_intror eq_refl));
        [unfold no_ws; cbn [all_chars]; now rewrite Hw | exact Ht | exact Hin].
    + apply (IH InWord (snoc token c) quoted l Hp (or_intror eq_refl));
        [now apply no_ws_snoc | exact Ht | exact Hin].
Qed.

Lemma plain_app (a b : string) : plain (a ++ b) = plain a && plain b.
Proof.
  induction a as [|c a IH]; simpl; [reflexivity|].
  now rewrite IH, andb_assoc.
Qed.

(** Inside a word, a plain word is appended to the token in hand. *)
Lemma tokens_word (w : string) :
  forall rest token quoted,
    no_ws w = true -> plain w = true ->
    tokens (w ++ rest) InWord token quoted
    = tokens rest InWord (token ++ w) quoted.
Proof.
  induction w as [|c w IH]; intros rest token quoted Hw Hp.
  - simpl. now rewrite append_empty_r.
  - unfold no_ws in Hw. simpl in Hw, Hp.
    apply andb_true_iff in Hw as [Hc Hw].
    apply andb_true_iff in Hp as [Hqe Hp].
    apply andb_true_iff in Hqe as [Hq He].
    apply negb_true_iff in Hc, Hq, He.
    cbn [append tokens]. rewrite Hc, Hq, He.
    rewrite (IH rest (snoc token c) quoted Hw Hp).
    unfold snoc. now rewrite append_assoc.
Qed.

(** At the start of a token, a plain word becomes the token in hand. *)
Lemma tokens_word_start (w rest : string) :
  plain_word w = true ->
  tokens (w ++ rest) InSpace "" false = tokens rest InWord w false.
Proof.
  unfold plain_word. intros H.
  apply andb_true_iff in H as [H Hp].
  apply andb_true_iff in H as [Hne Hw].
  destruct w as [|c w]; [discriminate|].
  unfold no_ws in Hw. simpl in Hw, Hp.
  apply andb_true_iff in Hw as [Hc Hw].
  apply andb_true_iff in Hp as [Hqe Hp].
  apply andb_true_iff in Hqe as [Hq He].
  apply negb_true_iff in Hc, Hq, He.
  cbn [append tokens]. rewrite Hc, Hq, He.
  now rewrite (tokens_word w rest (String c "") false Hw Hp).
Qed.

Lemma plain_word_not_empty (w : string) :
  plain_word w = true -> negb (String.eqb w "") = true.
Proof.
  unfold plain_word. intros H.
  apply andb_true_iff in H as [H _]. now apply andb_true_iff in H as [H _].
Qed.

(** Splitting the plain words joined by single spaces gives the words
    back. *)
Lemma split_join_words (words : list string) :
  forallb plain_word words = true ->
  split (join_words words) = inr words.
Proof.
  unfold split. induction words as [|w rest IH]; intros H; [reflexivity|].
  simpl in H. apply andb_true_iff in H as [Hw Hrest].
  destruct rest as [|w' rest'].
  - cbn [join_words]. rewrite <- (append_empty_r w) at 1.
    rewrite (tokens_word_start w "" Hw). simpl. unfold emit.
    now rewrite (plain_word_not_empty w Hw).
  - change (join_words (w :: w' :: rest'))
      with (w ++ String " " (join_words (w' :: rest'))).
    rewrite (tokens_word_start w _ Hw). cbn [tokens].
    change (is_whitespace " ") with true. cbn iota.
    rewrite (plain_word_not_empty w Hw). simpl orb. cbn iota.
    now rewrite (IH Hrest).
Qed.

End ShlexWords.

(** ** More on the command sanitizer and the bash action *)
Section SanitizerMore.
Import PyStr Sanitizer.

Lemma startswith_space_has_ws (part dc : string) :
  startswith part (dc ++ " ") = true -> no_ws part = false.
Proof.
  intros H. apply startswith_spec in H as [r ->].
  unfold no_ws. rewrite !all_chars_app. cbn [all_chars].
  change (Shlex.is_whitespace " ") with true.
  cbn [negb andb]. now rewrite andb_false_r.
Qed.

(** X1.  For a command without quote and backslash characters the
    sanitizer raises exactly when one of the words of the command is a
    dangerous command. *)
Theorem plain_rejected_iff_listed_part (command : string)
    (parts : list string) :
  plain command = true ->
  Shlex.split command = inr parts ->
  (_sanitize_command command = inl (ValueError msg_text) <->
   exists dc, In dc dangerous_commands /\ In dc parts).
Proof.
  intros Hp Hs. split.
  - intros Hrej.
    destruct (sanitize_cases command) as [[Hacc _] | [_ [Htok _]]];
      [congruence|].
    unfold tokenized_check in Htok. rewrite Hs in Htok.
    destruct (parts_dangerous parts) eqn:Hd; [|congruence].
    apply parts_dangerous_spec in Hd as [part [dc [Hin [Hdc Hm]]]].
    exists dc. split; [exact Hdc|].
    unfold part_matches in Hm. apply orb_true_iff in Hm as [Heq | Hsw].
    + apply String.eqb_eq in Heq. now subst.
    + apply startswith_space_has_ws in Hsw.
      assert (Hn : no_ws part = true).
      { apply (tokens_plain_no_ws command Shlex.InSpace "" false parts Hp
                 (or_introl eq_refl) eq_refl Hs part Hin). }
      congruence.
  - intros [dc [Hdc Hin]].
    now apply (sanitize_rejects_plain_part command dc parts).
Qed.

Lemma plain_rejected_iff_listed_part_witness :
  _sanitize_command "echo alarm; rmdir x" = inl (ValueError msg_text) <->
  exists dc, In dc dangerous_commands
             /\ In dc ["echo"; "alarm;"; "rmdir"; "x"].
Proof.
  apply (plain_rejected_iff_listed_part "echo alarm; rmdir x"
           ["echo"; "alarm;"; "rmdir"; "x"]); reflexivity.
Defined.

(** X2.  Whatever the sanitizer raises is the [ValueError] of the text
    check: the message of the check on the parts never reaches a caller,
    and the bash action reports every rejection with one fixed text and
    starts no process. *)
Theorem rejection_carries_text_message (command : string) (e : exn)
    (run_shell : string -> result (Z * string * string)) :
  _sanitize_command command = inl e ->
  e = ValueError msg_text /\
  execute_bash_command run_shell command =
    ([], inr ("Command sanitization failed: " ++ msg_text)).
Proof.
  intros H.
  destruct (sanitize_cases command) as [[Hacc _] | [Hrej _]];
    [congruence|].
  assert (He : e = ValueError msg_text) by congruence.
  split; [exact He|]. subst e.
  now rewrite (bash_events_rejected run_shell command _ H).
Qed.

Lemma rejection_carries_text_message_witness :
  ValueError msg_text = ValueError msg_text /\
  execute_bash_command (fun _ => inr (0%Z, "", "")) "sudo -s" =
    ([], inr ("Command sanitization failed: " ++ msg_text)).
Proof.
  apply (rejection_carries_text_message "sudo -s" (ValueError msg_text)
           (fun _ => inr (0%Z, "", ""))).
  reflexivity.
Defined.

(** X3.  The bash action never raises: whatever the sanitizer and the
    shell do, it returns a text, and it asks for at most one process. *)
Theorem bash_action_never_raises
    (run_shell : string -> result (Z * string * string)) (command : string) :
  (exists content,
      outcome (execute_bash_command run_shell command) = inr content) /\
  spawn_count (events (execute_bash_command run_shell command)) <= 1.
Proof.
  destruct (sanitize_cases command) as [[Hacc _] | [Hrej _]].
  - rewrite (bash_events_accepted run_shell command Hacc).
    split; [|apply le_n].
    unfold execute_bash_command. rewrite Hacc.
    unfold shell, catch, bind, tell, lift, ret, outcome.
    destruct (run_shell command) as [e | [[rc out] err]]; simpl.
    + eauto.
    + destruct (negb (rc =? 0)%Z); simpl; eauto.
  - rewrite (bash_events_rejected run_shell command _ Hrej).
    split; [simpl; eauto | apply le_S, le_n].
Qed.

(** X4.  When the command is let through and the shell ends with an exit
    code, the text returned starts with the success line exactly when the
    exit code is zero, and otherwise with the failure line that names the
    exit code. *)
Theorem bash_success_iff_zero_exit
    (run_shell : string -> result (Z * string * string))
    (command out err : string) (rc : Z) :
  _sanitize_command command = inr command ->
  run_shell command = inr (rc, out, err) ->
  exists content,
    outcome (execute_bash_command run_shell command) = inr content /\
    (startswith content "Bash command executed successfully." = true
     <-> rc = 0%Z) /\
    (startswith content
       ("Bash command failed with error code " ++ str_of_Z rc ++ ".") = true
     <-> rc <> 0%Z).
Proof.
  intros Hacc Hrun. unfold execute_bash_command. rewrite Hacc.
  unfold shell, catch, bind, tell, lift, ret, outcome. rewrite Hrun.
  destruct (Z.eqb_spec rc 0) as [-> | Hne]; cbn [negb snd fst].
  - eexists. split; [reflexivity|]. split.
    + split; reflexivity.
    + split; [intros H; discriminate H | intros H; now contradiction H].
  - eexists. split; [reflexivity|]. split.
    + split; [intros H; discriminate H | intros H; contradiction].
    + split; [intros _; exact Hne|]. intros _.
      apply startswith_spec. eexists.
      rewrite !append_assoc. reflexivity.
Qed.

Lemma bash_success_iff_zero_exit_witness :
  exists content,
    outcome (execute_bash_command (fun _ => inr (2%Z, "", "ls: no such file"))
               "ls /nowhere") = inr content /\
    (startswith content "Bash command executed successfully." = true
     <-> 2%Z = 0%Z) /\
    (startswith content
       ("Bash command failed with error code " ++ str_of_Z 2 ++ ".") = true
     <-> 2%Z <> 0%Z).
Proof.
  apply (bash_success_iff_zero_exit
           (fun _ => inr (2%Z, "", "ls: no such file"))
           "ls /nowhere" "" "ls: no such file" 2); reflexivity.
Defined.

End SanitizerMore.

(** ** More on the Linux command tool *)
Section StripFacts.
Import PyStr.

Lemma lstrip_no_leading_space (s : string) :
  starts_with_space (lstrip s) = false.
Proof.
  induction s as [|c s IH]; [reflexivity|].
  cbn [lstrip]. destruct (isspace c) eqn:Hc; [exact IH|].
  cbn [starts_with_space]. exact Hc.
Qed.

Lemma rstrip_keeps_start (s : string) :
  starts_with_space s = false -> starts_with_space (rstrip s) = false.
Proof.
  destruct s as [|c s]; [reflexivity|].
  cbn [starts_with_space rstrip]. intros Hc.
  destruct (rstrip s); [rewrite Hc|]; cbn [starts_with_space]; assumption.
Qed.

Lemma rstrip_no_trailing_space (s : string) :
  ends_with_space (rstrip s) = false.
Proof.
  induction s as [|c s IH]; [reflexivity|].
  cbn [rstrip]. destruct (rstrip s) as [|d r] eqn:E.
  - destruct (isspace c) eqn:Hc; [reflexivity|].
    cbn [ends_with_space]. exact Hc.
  - change (ends_with_space (String c (String d r)))
      with (ends_with_space (String d r)). exact IH.
Qed.

(** What [strip] returns neither starts nor ends with white space. *)
Lemma strip_no_outer_space (s : string) :
  starts_with_space (strip s) = false /\ ends_with_space (strip s) = false.
Proof.
  unfold strip. split.
  - apply rstrip_keeps_start, lstrip_no_leading_space.
  - apply rstrip_no_trailing_space.
Qed.

Lemma ends_with_space_app (a b : string) :
  b <> "" -> ends_with_space (a ++ b) = ends_with_space b.
Proof.
  intros Hb. induction a as [|c a IH]; [reflexivity|].
  cbn [append]. destruct (a ++ b) as [|d r] eqn:E.
  - destruct a; [simpl in E; contradiction | discriminate].
  - rewrite <- IH. reflexivity.
Qed.

Lemma take_length (n : nat) (s : string) :
  String.length (take n s) = Nat.min n (String.length s).
Proof.
  unfold take. revert n. induction s as [|c s IH]; intros [|n]; simpl;
    try reflexivity.
  now rewrite IH.
Qed.

Lemma take_all (n : nat) (s : string) :
  String.length s <= n -> take n s = s.
Proof.
  unfold take. revert n. induction s as [|c s IH]; intros [|n] H; simpl in *;
    try reflexivity; try lia.
  rewrite IH; [reflexivity | lia].
Qed.

Lemma length_append (a b : string) :
  String.length (a ++ b) = String.length a + String.length b.
Proof. induction a as [|c a IH]; simpl; [reflexivity | now rewrite IH]. Qed.

(** X9.  A stream is logged whole when it has at most 500 characters and
    otherwise cut to its first 500 characters followed by three dots, so
    a logged snippet never has more than 503 characters. *)
Theorem snippet_is_bounded (s : string) :
  String.length (LinuxCmd.snippet s) <= 503 /\
  (String.length s <= 500 -> LinuxCmd.snippet s = s) /\
  (500 < String.length s ->
   LinuxCmd.snippet s = take 500 s ++ "..." /\
   String.length (LinuxCmd.snippet s) = 503).
Proof.
  unfold LinuxCmd.snippet.
  destruct (Nat.ltb_spec 500 (String.length s)) as [Hlt | Hle].
  - rewrite length_append, take_length. simpl String.length.
    repeat split; try lia.
  - rewrite append_empty_r, (take_all 500 s Hle).
    repeat split; try lia.
Qed.

End StripFacts.

Section LinuxCmdMore.
Import PyStr LinuxCmd.

Variable expanduser : string -> string.
Variable subprocess_run :
  list string -> option string -> Z -> result (Z * string * string).

Local Abbreviation execute :=
  (execute_linux_command expanduser subprocess_run).
Local Abbreviation expand := (expand_part expanduser).

Lemma filter_none {A} (p : A -> bool) (l : list A) :
  existsb p l = false -> filter p l = [].
Proof.
  induction l as [|a l IH]; [reflexivity|]. simpl.
  intros H. apply orb_false_iff in H as [Ha Hl].
  rewrite Ha. now apply IH.
Qed.

Lemma spawn_count_one (pre ev : list event) (e : event) :
  existsb is_spawn pre = false -> existsb is_spawn ev = false ->
  is_spawn e = true ->
  spawn_count (pre ++ e :: ev) = 1.
Proof.
  intros Hpre Hev He. unfold spawn_count.
  rewrite filter_app, (filter_none _ _ Hpre). simpl.
  now rewrite He, (filter_none _ _ Hev).
Qed.

(** What the tokenizer raises is one of its two [ValueError]s. *)
Lemma tokens_raise_message (s : string) :
  forall st token quoted e,
    Shlex.tokens s st token quoted = inl e ->
    e = ValueError "No closing quotation" \/
    e = ValueError "No escaped character".
Proof.
  induction s as [|c rest IH]; intros st token quoted e H.
  - destruct st; simpl in H; try discriminate; injection H as <-; auto.
  - cbn [Shlex.tokens] in H.
    destruct st.
    + destruct (Shlex.is_whitespace c).
      * destruct (quoted || negb (String.eqb token "")); [|eauto].
        destruct (Shlex.tokens rest Shlex.InSpace "" false) eqn:E;
          [injection H as <-; eauto | discriminate].
      * destruct (Shlex.is_escape c); [eauto|].
        destruct (Shlex.is_quote c); eauto.
    + destruct (Shlex.is_whitespace c).
      * destruct (quoted || negb (String.eqb token "")); [|eauto].
        destruct (Shlex.tokens rest Shlex.InSpace "" false) eqn:E;
          [injection H as <-; eauto | discriminate].
      * destruct (Shlex.is_quote c); [eauto|].
        destruct (Shlex.is_escape c); eauto.
    + destruct (Ascii.eqb c q); [eauto|].
      destruct (Shlex.is_escape c && Shlex.is_escapedquote q); eauto.
    + eauto.
Qed.

(** X5.  For a command made of plain words separated by single spaces,
    the tool asks for exactly one child process, whose argument vector is
    the list of those words, each after tilde expansion. *)
Theorem joined_words_are_the_argv (w : string) (ws : list string)
    (wd : option string) (t : Z) :
  forallb plain_word (w :: ws) = true ->
  exists ev,
    events (execute (join_words (w :: ws)) wd t)
      = (preamble (join_words (w :: ws)) wd t
           ++ SpawnArgv (map expand (w :: ws)) wd t :: ev)%list /\
    spawn_count (events (execute (join_words (w :: ws)) wd t)) = 1.
Proof.
  intros Hw.
  destruct (execute_with_parts expanduser subprocess_run
              (join_words (w :: ws)) wd t w ws (split_join_words _ Hw))
    as [ev [Hev [Hns _]]].
  exists ev. split; [exact Hev|].
  rewrite Hev. apply spawn_count_one;
    [apply preamble_no_spawn | exact Hns | reflexivity].
Qed.

(** X6.  A child process that ends is never an error of the tool, whatever
    its exit code: the envelope carries that exit code and both streams
    stripped, [timed_out] is false, [error] is null, and exactly one
    process was asked for. *)
Theorem any_exit_code_is_returned (command : string) (wd : option string)
    (t : Z) (p : string) (ps : list string) (rc : Z) (out err : string) :
  Shlex.split command = inr (p :: ps) ->
  subprocess_run (map expand (p :: ps)) wd t = inr (rc, out, err) ->
  outcome (execute command wd t) =
    inr {| command := command;
           return_code := Some rc;
           stdout := strip out;
           stderr := strip err;
           timed_out := false;
           error := None |} /\
  spawn_count (events (execute command wd t)) = 1.
Proof.
  intros Hs Hr.
  destruct (execute_with_parts expanduser subprocess_run _ wd t _ _ Hs)
    as [ev [Hev [Hns Hout]]].
  split.
  - rewrite Hout, Hr. reflexivity.
  - rewrite Hev. apply spawn_count_one;
      [apply preamble_no_spawn | exact Hns | reflexivity].
Qed.

(** X7.  The tool does not consult the deny-list of the sanitizer: a
    command that [_sanitize_command] rejects is handed to
    [subprocess.run] like any other, in one call. *)
Theorem linux_tool_runs_rejected_commands (command : string)
    (wd : option string) (t : Z) (p : string) (ps : list string) (e : exn) :
  Sanitizer._sanitize_command command = inl e ->
  Shlex.split command = inr (p :: ps) ->
  In (SpawnArgv (map expand (p :: ps)) wd t) (events (execute command wd t)) /\
  spawn_count (events (execute command wd t)) = 1.
Proof.
  intros _ Hs.
  destruct (execute_with_parts expanduser subprocess_run _ wd t _ _ Hs)
    as [ev [Hev [Hns _]]].
  rewrite Hev. split.
  - apply in_or_app. right. now left.
  - apply spawn_count_one;
      [apply preamble_no_spawn | exact Hns | reflexivity].
Qed.

(** X8.  A command that the tokenizer cannot read (a quotation that is not
    closed, a backslash at the very end) ends in a [ToolError] that quotes
    the message of the tokenizer, and no child process is asked for. *)
Theorem unreadable_command_is_tool_error (command : string)
    (wd : option string) (t : Z) (e : exn) :
  Shlex.split command = inl e ->
  (str_of_exn e = "No closing quotation" \/
   str_of_exn e = "No escaped character") /\
  outcome (execute command wd t)
    = inl (ToolError (msg_unexpected ++ str_of_exn e)) /\
  spawn_count (events (execute command wd t)) = 0.
Proof.
  intros Hs.
  assert (Hm := tokens_raise_message _ _ _ _ _ Hs).
  assert (He : e = ValueError (str_of_exn e)).
  { destruct Hm as [-> | ->]; reflexivity. }
  rewrite He in Hs.
  rewrite (execute_split_raises expanduser subprocess_run _ wd t _ Hs).
  split; [destruct Hm as [-> | ->]; auto|].
  split; [reflexivity|].
  cbn [events fst]. unfold spawn_count.
  rewrite filter_app, (filter_none _ _ (preamble_no_spawn command wd t)).
  reflexivity.
Qed.

(** X10.  In every envelope the tool returns, neither [stdout] nor
    [stderr] starts or ends with white space. *)
Theorem envelope_streams_are_stripped (command : string)
    (wd : option string) (t : Z) (env : envelope) :
  outcome (execute command wd t) = inr env ->
  starts_with_space (stdout env) = false /\
  ends_with_space (stdout env) = false /\
  starts_with_space (stderr env) = false /\
  ends_with_space (stderr env) = false.
Proof.
  destruct (Shlex.split command) as [e0 | [|p ps]] eqn:Hs.
  - destruct (tokens_raise_value_error _ _ _ _ _ Hs) as [m ->].
    rewrite (execute_split_raises _ _ _ _ _ m Hs). discriminate.
  - rewrite (execute_no_parts _ _ _ _ _ Hs). discriminate.
  - destruct (execute_with_parts expanduser subprocess_run _ wd t _ _ Hs)
      as [ev [_ [_ ->]]].
    destruct (subprocess_run _ wd t) as [[] | [[rc out] err]];
      intros H; try discriminate; injection H as <-; cbn [stdout stderr].
    + repeat split; try reflexivity.
      change (ends_with_space
                ("Command timed out after " ++ (str_of_Z t ++ " seconds."))
              = false).
      rewrite ends_with_space_app; [|destruct (str_of_Z t); discriminate].
      rewrite ends_with_space_app; [reflexivity | discriminate].
    + destruct (strip_no_outer_space out), (strip_no_outer_space err).
      repeat split; assumption.
Qed.

End LinuxCmdMore.

Section LinuxCmdMoreExamples.
Import PyStr LinuxCmd.

Lemma joined_words_are_the_argv_witness :
  exists ev,
    events (execute_linux_command sample_expanduser (run_ends_with 0 "" "")
              (join_words ["ls"; "-la"; "~/proj"]) None 60)
      = (preamble (join_words ["ls"; "-la"; "~/proj"]) None 60
           ++ SpawnArgv (map (expand_part sample_expanduser)
                             ["ls"; "-la"; "~/proj"]) None 60 :: ev)%list /\
    spawn_count
      (events (execute_linux_command sample_expanduser (run_ends_with 0 "" "")
                 (join_words ["ls"; "-la"; "~/proj"]) None 60)) = 1.
Proof.
  apply (joined_words_are_the_argv sample_expanduser (run_ends_with 0 "" "")
           "ls" ["-la"; "~/proj"] None 60).
  reflexivity.
Defined.

Lemma any_exit_code_is_returned_witness :
  outcome (execute_linux_command sample_expanduser
             (run_ends_with 2 "" ("ls: cannot access '/nowhere'" ++ nl))
             "ls /nowhere" None 60) =
    inr {| command := "ls /nowhere";
           return_code := Some 2%Z;
           stdout := strip "";
           stderr := strip ("ls: cannot access '/nowhere'" ++ nl);
           timed_out := false;
           error := None |} /\
  spawn_count
    (events (execute_linux_command sample_expanduser
               (run_ends_with 2 "" ("ls: cannot access '/nowhere'" ++ nl))
               "ls /nowhere" None 60)) = 1.
Proof.
  apply (any_exit_code_is_returned sample_expanduser
           (run_ends_with 2 "" ("ls: cannot access '/nowhere'" ++ nl))
           "ls /nowhere" None 60 "ls" ["/nowhere"] 2 ""
           ("ls: cannot access '/nowhere'" ++ nl)); reflexivity.
Defined.

Lemma linux_tool_runs_rejected_commands_witness :
  In (SpawnArgv (map (expand_part sample_expanduser)
                     ["sudo"; "rm"; "-rf"; "/"]) None 60)
     (events (execute_linux_command sample_expanduser (run_ends_with 0 "" "")
                "sudo rm -rf /" None 60)) /\
  spawn_count
    (events (execute_linux_command sample_expanduser (run_ends_with 0 "" "")
               "sudo rm -rf /" None 60)) = 1.
Proof.
  apply (linux_tool_runs_rejected_commands sample_expanduser
           (run_ends_with 0 "" "") "sudo rm -rf /" None 60
           "sudo" ["rm"; "-rf"; "/"] (ValueError msg_text)); reflexivity.
Defined.

Lemma unreadable_command_is_tool_error_witness :
  (str_of_exn (ValueError "No closing quotation") = "No closing quotation" \/
   str_of_exn (ValueError "No closing quotation") = "No escaped character") /\
  outcome (execute_linux_command sample_expanduser (run_ends_with 0 "" "")
             "echo 'abc" None 60)
    = inl (ToolError (msg_unexpected
                        ++ str_of_exn (ValueError "No closing quotation"))) /\
  spawn_count
    (events (execute_linux_command sample_expanduser (run_ends_with 0 "" "")
               "echo 'abc" None 60)) = 0.
Proof.
  apply (unreadable_command_is_tool_error sample_expanduser
           (run_ends_with 0 "" "") "echo 'abc" None 60
           (ValueError "No closing quotation")).
  reflexivity.
Defined.

Lemma envelope_streams_are_stripped_witness :
  starts_with_space (strip ("  up 3 days" ++ nl)) = false /\
  ends_with_space (strip ("  up 3 days" ++ nl)) = false /\
  starts_with_space (strip "") = false /\
  ends_with_space (strip "") = false.
Proof.
  apply (envelope_streams_are_stripped sample_expanduser
           (run_ends_with 0 ("  up 3 days" ++ nl) "") "uptime" None 60
           {| command := "uptime";
              return_code := Some 0%Z;
              stdout := strip ("  up 3 days" ++ nl);
              stderr := strip "";
              timed_out := false;
              error := None |}).
  reflexivity.
Defined.

End LinuxCmdMoreExamples.

(** ** More on the DevTools script and its actions *)
Section DevtoolsMore.
Import PyStr Devtools Actions.

Variable path_exists : string -> bool.
Variable subprocess_run :
  list string -> string -> Z -> result (Z * string * string).
Variable json_loads : string -> loads_outcome.
Variable py_str : json -> string.
Variable not_iterable : json -> string.
Variable bad_subscript : json -> string.

Local Abbreviation script :=
  (_execute_devtools_script path_exists subprocess_run json_loads py_str
     not_iterable bad_subscript).
Local Abbreviation is_installed := (installed path_exists).
Local Abbreviation has_completed := (completed subprocess_run).

(** Where an output that is passed on comes from. *)
Lemma script_output_inv (script_name url o : string) :
  script script_name url = Output o ->
  is_installed script_name /\
  exists stdout stderr v,
    has_completed script_name url 0 stdout stderr /\
    o = strip stdout /\
    json_loads o = Decoded v.
Proof.
  unfold _execute_devtools_script, installed, completed.
  destruct (path_exists (path_join DEVTOOLS_SCRIPTS_DIR [script_name]));
    [|discriminate].
  destruct (path_exists
              (path_join DEVTOOLS_SCRIPTS_DIR ["node_modules"; "puppeteer"]));
    [|discriminate].
  cbn [negb]. unfold run_script.
  destruct (subprocess_run _ _ _) as [e | [[rc out] err]].
  - destruct e; discriminate.
  - destruct (Z.eqb_spec rc 0) as [-> | Hne]; cbn [negb].
    + destruct (json_loads (strip out)) as [v | m | e] eqn:Hj.
      * intros H. injection H as <-.
        split; [split; reflexivity|].
        exists out, err, v. repeat split. exact Hj.
      * discriminate.
      * destruct e; discriminate.
    + destruct (stdout_error _ _ _ _ _ _ _ _) as [e | [d |]];
        [destruct e | |]; discriminate.
Qed.

(** X11.  What the function passes on as the output of a script is
    always the stripped output of a child process that ended with exit
    code zero, for an installed script, and a text that [json.loads]
    decodes. *)
Theorem output_comes_from_a_clean_run (script_name url o : string) :
  script script_name url = Output o ->
  is_installed script_name /\
  exists stdout stderr v,
    has_completed script_name url 0 stdout stderr /\
    o = strip stdout /\
    json_loads o = Decoded v.
Proof. apply script_output_inv. Qed.

(** X12.  Every other result is a dictionary that has an [error] key. *)
Theorem every_dictionary_has_an_error (script_name url : string) (d : dict) :
  script script_name url = Dumps d ->
  exists msg, field "error" (Dumps d) = Some msg.
Proof.
  unfold _execute_devtools_script.
  destruct (path_exists (path_join DEVTOOLS_SCRIPTS_DIR [script_name]));
    cbn [negb]; [|intros H; injection H as <-; eexists; reflexivity].
  destruct (path_exists
              (path_join DEVTOOLS_SCRIPTS_DIR ["node_modules"; "puppeteer"]));
    cbn [negb]; [|intros H; injection H as <-; eexists; reflexivity].
  unfold run_script.
  destruct (subprocess_run _ _ _) as [e | [[rc out] err]].
  - destruct e; intros H; injection H as <-; eexists; reflexivity.
  - destruct (negb (rc =? 0)%Z).
    + unfold stdout_error.
      destruct (json_loads (strip out)) as [v | m | e].
      * destruct (error_in _ v) as [e | []].
        -- destruct e; intros H; injection H as <-; eexists; reflexivity.
        -- destruct (error_of _ v) as [e | v'].
           ++ destruct e; intros H; injection H as <-; eexists; reflexivity.
           ++ intros H; injection H as <-; eexists; reflexivity.
        -- intros H; injection H as <-; eexists; reflexivity.
      * intros H; injection H as <-; eexists; reflexivity.
      * destruct e; intros H; injection H as <-; eexists; reflexivity.
    + destruct (json_loads (strip out)) as [v | m | e].
      * discriminate.
      * intros H; injection H as <-; eexists; reflexivity.
      * destruct e; intros H; injection H as <-; eexists; reflexivity.
Qed.

(** X13.  On a non-zero exit code, when the output of the script decodes
    to a value on which the look-up of the [error] key fails, the result is
    the dictionary of the general handler: it has the [error] key only,
    neither the output nor the error stream of the script is kept. *)
Theorem failed_run_with_scalar_output_loses_streams
    (script_name url stdout stderr : string) (returncode : Z) (v : json) :
  is_installed script_name ->
  has_completed script_name url returncode stdout stderr ->
  returncode <> 0%Z ->
  json_loads (strip stdout) = Decoded v ->
  breaks_error_lookup v = true ->
  exists m,
    (m = not_iterable v \/ m = bad_subscript v) /\
    script script_name url =
      Dumps [ ("error", "Python error calling " ++ script_name ++ ": " ++ m) ] /\
    field "stdout" (script script_name url) = None /\
    field "stderr" (script script_name url) = None.
Proof.
  intros [H1 H2] Hc Hrc Hj Hb.
  unfold _execute_devtools_script, completed in *.
  rewrite H1, H2. cbn [negb]. unfold run_script. rewrite Hc.
  apply Z.eqb_neq in Hrc. rewrite Hrc. cbn [negb].
  unfold stdout_error. rewrite Hj.
  destruct v as [| b | n | s | items | members];
    cbn [breaks_error_lookup] in Hb; cbn [error_in error_of].
  - eexists; split; [left; reflexivity | repeat split].
  - eexists; split; [left; reflexivity | repeat split].
  - eexists; split; [left; reflexivity | repeat split].
  - rewrite Hb. eexists; split; [right; reflexivity | repeat split].
  - rewrite Hb. eexists; split; [right; reflexivity | repeat split].
  - discriminate.
Qed.

(** X14.  An action whose URL does not start with [http://] or [https://]
    answers with the error of the URL format whatever the surroundings
    are, and an action that passes on an output was given such a URL and
    returns the stripped output of its own script, run on that URL with
    exit code zero. *)
Theorem inspect_actions_guard_the_url (url : string) :
  (url_ok url = false ->
   inspect_network_traffic path_exists subprocess_run json_loads py_str
     not_iterable bad_subscript url = invalid_url /\
   inspect_console_logs path_exists subprocess_run json_loads py_str
     not_iterable bad_subscript url = invalid_url /\
   inspect_application_storage path_exists subprocess_run json_loads py_str
     not_iterable bad_subscript url = invalid_url /\
   inspect_page_sources path_exists subprocess_run json_loads py_str
     not_iterable bad_subscript url = invalid_url) /\
  (forall o,
      inspect_network_traffic path_exists subprocess_run json_loads py_str
        not_iterable bad_subscript url = Output o ->
      url_ok url = true /\
      exists stdout stderr,
        has_completed "get_network_data.js" url 0 stdout stderr /\
        o = strip stdout) /\
  (forall o,
      inspect_console_logs path_exists subprocess_run json_loads py_str
        not_iterable bad_subscript url = Output o ->
      url_ok url = true /\
      exists stdout stderr,
        has_completed "get_console_logs.js" url 0 stdout stderr /\
        o = strip stdout) /\
  (forall o,
      inspect_application_storage path_exists subprocess_run json_loads
        py_str not_iterable bad_subscript url = Output o ->
      url_ok url = true /\
      exists stdout stderr,
        has_completed "get_application_storage.js" url 0 stdout stderr /\
        o = strip stdout) /\
  (forall o,
      inspect_page_sources path_exists subprocess_run json_loads py_str
        not_iterable bad_subscript url = Output o ->
      url_ok url = true /\
      exists stdout stderr,
        has_completed "get_page_sources.js" url 0 stdout stderr /\
        o = strip stdout).
Proof.
  unfold inspect_network_traffic, inspect_console_logs,
    inspect_application_storage, inspect_page_sources.
  split.
  - intros ->. repeat split.
  - repeat split;
      destruct (url_ok url); cbn [negb] in *; try discriminate;
      try reflexivity;
      match goal with
      | H : _ = Output _ |- _ =>
          destruct (script_output_inv _ _ _ H)
            as [_ [out [err [v [Hc [Ho _]]]]]];
          exists out, err; split; assumption
      end.
Qed.

End DevtoolsMore.

Section DevtoolsMoreExamples.
Import PyStr Devtools.

Lemma output_comes_from_a_clean_run_witness :
  installed sample_exists "get_page_sources.js" /\
  exists stdout stderr v,
    completed run_prints_object "get_page_sources.js" "https://example.com"
      0 stdout stderr /\
    "{}" = strip stdout /\
    sample_loads "{}" = Decoded v.
Proof.
  apply (output_comes_from_a_clean_run sample_exists run_prints_object
           sample_loads sample_str sample_type_error sample_type_error
           "get_page_sources.js" "https://example.com" "{}").
  reflexivity.
Defined.

Lemma every_dictionary_has_an_error_witness :
  exists msg,
    field "error"
      (Dumps [ ("error", "Non-JSON output received from get_page_sources.js");
               ("raw_output", "Navigation done") ]) = Some msg.
Proof.
  apply (every_dictionary_has_an_error sample_exists run_prints_text
           sample_loads sample_str sample_type_error sample_type_error
           "get_page_sources.js" "https://example.com").
  reflexivity.
Defined.

Lemma failed_run_with_scalar_output_loses_streams_witness :
  exists m,
    (m = sample_type_error (JNumber "7")
     \/ m = sample_type_error (JNumber "7")) /\
    _execute_devtools_script sample_exists run_fails_with_seven loads_seven
      sample_str sample_type_error sample_type_error
      "get_console_logs.js" "https://example.com" =
      Dumps [ ("error", "Python error calling " ++ "get_console_logs.js"
                          ++ ": " ++ m) ] /\
    field "stdout"
      (_execute_devtools_script sample_exists run_fails_with_seven loads_seven
         sample_str sample_type_error sample_type_error
         "get_console_logs.js" "https://example.com") = None /\
    field "stderr"
      (_execute_devtools_script sample_exists run_fails_with_seven loads_seven
         sample_str sample_type_error sample_type_error
         "get_console_logs.js" "https://example.com") = None.
Proof.
  apply (failed_run_with_scalar_output_loses_streams sample_exists
           run_fails_with_seven loads_seven sample_str sample_type_error
           sample_type_error "get_console_logs.js" "https://example.com"
           ("7" ++ nl) ("TypeError: x is undefined" ++ nl) 1 (JNumber "7")).
  - split; reflexivity.
  - reflexivity.
  - discriminate.
  - reflexivity.
  - reflexivity.
Defined.

End DevtoolsMoreExamples.

(** ** More on the orchestration tools *)
Section OrchestrationMore.
Import PyStr Orchestration.

Lemma filter_task_app (a b : list event) :
  filter is_task (a ++ b) = (filter is_task a ++ filter is_task b)%list.
Proof. apply filter_app. Qed.

(** The tasks of one call. *)
Lemma tasks_of_start (ctx : Context) (scope name : string) (p : profile) :
  filter is_task (events (start_full_assessment ctx scope name p)) =
    match client ctx with
    | Some _ => [CreateTask "ReconnaissanceTools.subdomain_enumeration"
                            [("target_domain", scope)]]
    | None => []
    end.
Proof.
  unfold start_full_assessment, ctx_client.
  destruct (client ctx); reflexivity.
Qed.

(** The tasks of a session. *)
Lemma tasks_of_session (ctx : Context) (session : list request) :
  filter is_task (session_events ctx session) =
    match client ctx with
    | Some _ =>
        map (fun scope =>
               CreateTask "ReconnaissanceTools.subdomain_enumeration"
                          [("target_domain", scope)])
            (started_scopes session)
    | None => []
    end.
Proof.
  induction session as [|q rest IH]; [now destruct (client ctx)|].
  unfold session_events in *. cbn [flat_map].
  rewrite filter_task_app, IH.
  destruct q as [scope name p | id].
  - rewrite tasks_of_start. destruct (client ctx); reflexivity.
  - destruct (client ctx); reflexivity.
Qed.

(** X16.  Over a whole session, what is handed to the event loop depends
    on the context the calls are served with.  With a context that has no
    [client], as the one of FastMCP, no task is ever scheduled: every
    [start_full_assessment] call is answered with the [AttributeError] of
    [ctx.client], and the session hands out no identifier.  With a context
    that has one, the tasks are one subdomain enumeration for every
    [start_full_assessment] call, in the order of the calls, each on the
    scope that call was given, whatever the name and the profile.  The
    status tool schedules nothing and is answered either way. *)
Theorem session_schedules_recon_only_with_client (ctx : Context)
    (session : list request) :
  filter is_task (session_events ctx session) =
    match client ctx with
    | Some _ =>
        map (fun scope =>
               CreateTask "ReconnaissanceTools.subdomain_enumeration"
                          [("target_domain", scope)])
            (started_scopes session)
    | None => []
    end /\
  filter is_task (session_events fastmcp_context session) = [] /\
  started_ids fastmcp_context session = [] /\
  serve fastmcp_context session =
    map (fun q =>
           match q with
           | StartFullAssessment _ _ _ =>
               Raised (AttributeError
                         "'Context' object has no attribute 'client'")
           | GetAssessmentStatus id =>
               Status {| status_assessment_id := id;
                         status_status := "in_progress";
                         progress := 50 |}
           end) session.
Proof.
  split; [apply tasks_of_session
         | split; [apply (tasks_of_session fastmcp_context) | split]].
  - induction session as [|q rest IH]; [reflexivity|].
    destruct q as [scope name p | id]; exact IH.
  - unfold serve. apply map_ext. intros [scope name p | id]; reflexivity.
Qed.

End OrchestrationMore.

(** ** The analysis and reporting tools *)
Section ReportFacts.
Import PyStr Async Analysis.

(** X17.  The report is a dictionary of two entries whose [format] is the
    format asked for.  It has an [error] entry exactly for the format
    [html_summary]; a [json] report carries the [remediation] entry
    exactly when advice was asked for, and the [markdown] report with
    advice is the one without, followed by the remediation paragraph. *)
Theorem report_shape (assessment_id : string) :
  (forall fmt advice,
      exists second,
        outcome (generate_vulnerability_report assessment_id fmt advice)
          = inr (VDict [ ("format", VStr (output_format_str fmt)); second ]) /\
        (fst second = "error" <-> fmt = html_summary)) /\
  (forall advice,
      exists report,
        outcome (generate_vulnerability_report assessment_id json_format advice)
          = inr (VDict [ ("format", VStr "json");
                         ("report_data", VDict report) ]) /\
        dict_get "assessment_id" report = Some (VStr assessment_id) /\
        dict_get "summary" report = Some (VDict summary) /\
        (dict_get "remediation" report <> None <-> advice = true)) /\
  (exists md,
      outcome (generate_vulnerability_report assessment_id markdown false)
        = inr (VDict [ ("format", VStr "markdown");
                       ("report_content", VStr md) ]) /\
      outcome (generate_vulnerability_report assessment_id markdown true)
        = inr (VDict [ ("format", VStr "markdown");
                       ("report_content",
                        VStr (md ++ nl ++ nl
                                ++ "**Remediation:** Apply patches.")) ]) /\
      startswith md ("# Report " ++ assessment_id) = true).
Proof.
  split; [|split].
  - intros fmt advice.
    destruct fmt, advice; eexists; (split; [reflexivity|]);
      cbn [fst]; split; intros H; try discriminate H; reflexivity.
  - intros advice. destruct advice; eexists;
      (split; [reflexivity|]); repeat split;
      try (intros H; discriminate H);
      try (intros _; discriminate).
    intros H. now contradiction H.
  - eexists. split; [reflexivity|]. split; [reflexivity|].
    apply startswith_spec. eexists. rewrite append_assoc. reflexivity.
Qed.

End ReportFacts.

Section AnalysisFacts.
Import PyStr Async Analysis.

Variable run_exec : list string -> result (Z * bytes * bytes).
Variable decode : bytes -> result string.
Variable json_loads : string -> result value.
Variable load_results : result value.

Local Abbreviation codeql := (codeql_scan run_exec decode load_results).
Local Abbreviation secrets := (secret_discovery run_exec decode json_loads).
Local Abbreviation analyze := (analyze_source_code run_exec decode json_loads).

(** X18.  When the creation of the database ends with an exit code other
    than zero, [codeql_scan] raises the [ToolError] of the creation with
    the stripped error stream in it, and the analysis is never started:
    the creation is the only child process. *)
Theorem codeql_creation_failure_stops_the_scan (code_path database_name : string)
    (language : codeql_language) (rc : Z) (out err : bytes) (text : string) :
  run_exec (codeql_create_argv code_path language database_name)
    = inr (rc, out, err) ->
  rc <> 0%Z ->
  decode err = inr text ->
  aoutcome (codeql code_path language database_name)
    = inl (ToolError ("CodeQL database creation failed: " ++ strip text)) /\
  filter is_exec (aevents (codeql code_path language database_name))
    = [AExec (codeql_create_argv code_path language database_name)].
Proof.
  unfold codeql_create_argv. intros Hr Hrc Hd.
  apply Z.eqb_neq in Hrc.
  unfold codeql_scan, exec, abind, atell, alift, araise, aret,
    aoutcome, aevents.
  rewrite Hr. cbn. rewrite Hrc. cbn. rewrite Hd. cbn.
  split; reflexivity.
Qed.

(** X19.  [codeql_scan] returns only when both child processes, the
    creation and then the analysis, ended with exit code zero and the
    file of results could be read; what it returns is the name of the
    database with the content of that file. *)
Theorem codeql_result_needs_both_runs (code_path database_name : string)
    (language : codeql_language) (reply : value) :
  aoutcome (codeql code_path language database_name) = inr reply ->
  (exists out err,
      run_exec (codeql_create_argv code_path language database_name)
        = inr (0%Z, out, err)) /\
  (exists out err,
      run_exec (codeql_analyze_argv database_name) = inr (0%Z, out, err)) /\
  (exists results,
      load_results = inr results /\
      reply = VDict [ ("database", VStr database_name);
                      ("results", results) ]) /\
  filter is_exec (aevents (codeql code_path language database_name))
    = [ AExec (codeql_create_argv code_path language database_name);
        AExec (codeql_analyze_argv database_name) ].
Proof.
  unfold codeql_create_argv, codeql_analyze_argv.
  unfold codeql_scan, exec, abind, atell, alift, araise, aret,
    aoutcome, aevents.
  destruct (run_exec [_; _; _; _; _; _; _]) as [e1 | [[rc1 o1] e1]];
    cbn; [discriminate|].
  destruct (Z.eqb_spec rc1 0) as [-> | Hne1]; cbn;
    [|destruct (decode e1); cbn; discriminate].
  destruct (run_exec [_; _; _; _; _; _; _; _]) as [e2 | [[rc2 o2] e2]];
    cbn; [discriminate|].
  destruct (Z.eqb_spec rc2 0) as [-> | Hne2]; cbn;
    [|destruct (decode e2); cbn; discriminate].
  destruct load_results as [e | results]; cbn; [discriminate|].
  intros H. injection H as <-.
  repeat split; eauto.
Qed.

End AnalysisFacts.

Section AnalysisMore.
Import PyStr Async Analysis.

Variable run_exec : list string -> result (Z * bytes * bytes).
Variable decode : bytes -> result string.
Variable json_loads : string -> result value.

Local Abbreviation secrets := (secret_discovery run_exec decode json_loads).
Local Abbreviation analyze := (analyze_source_code run_exec decode json_loads).
Local Abbreviation discover := (discover run_exec decode json_loads).

(** One half of [secret_discovery], for a child process that ends and
    whose stream decodes: it adds one entry, under the name of the tool
    after exit code zero and under that name followed by [_error]
    otherwise. *)
Lemma discover_adds_one_entry (tool : string) (argv : list string)
    (findings : list (string * value)) (rc : Z) (out err : bytes)
    (text : string) :
  run_exec argv = inr (rc, out, err) ->
  decode (stream_read rc out err) = inr text ->
  discover tool argv findings =
    ([AExec argv],
     inr (findings ++ [(entry_name tool rc,
                        entry_value json_loads rc text)])%list).
Proof.
  intros Hr Hd. unfold Analysis.discover, exec, abind, atell, alift, aret.
  rewrite Hr. cbn. unfold entry_name, entry_value, stream_read in *.
  destruct (rc =? 0)%Z; rewrite Hd; cbn; [|reflexivity].
  destruct (json_loads text); reflexivity.
Qed.

(** The same half when the stream does not decode: the exception of
    [decode] leaves it. *)
Lemma discover_raises_on_decode (tool : string) (argv : list string)
    (findings : list (string * value)) (rc : Z) (out err : bytes)
    (x : exn) :
  run_exec argv = inr (rc, out, err) ->
  decode (stream_read rc out err) = inl x ->
  discover tool argv findings = ([AExec argv], inl x).
Proof.
  intros Hr Hd. unfold Analysis.discover, exec, abind, atell, alift, aret.
  rewrite Hr. cbn. unfold stream_read in *.
  destruct (rc =? 0)%Z; rewrite Hd; reflexivity.
Qed.

(** X20.  When both child processes end and, of each, the stream the
    tool reads decodes (the output after exit code zero, the error stream
    otherwise), [secret_discovery] runs bandit and then trufflehog,
    whatever the exit code of bandit was, and returns findings with
    exactly two entries: the first named [bandit] or [bandit_error], the
    second [trufflehog] or [trufflehog_error], by the exit code of each
    tool, holding what the tool printed.  The other stream of a child is
    never decoded.  When the stream read from bandit does not decode, the
    exception leaves the tool and trufflehog is not run. *)
Theorem secret_discovery_runs_both_tools (path : string)
    (rc1 rc2 : Z) (o1 e1 o2 e2 : bytes) (t1 t2 : string) :
  run_exec (bandit_argv path) = inr (rc1, o1, e1) ->
  run_exec (trufflehog_argv path) = inr (rc2, o2, e2) ->
  decode (stream_read rc1 o1 e1) = inr t1 ->
  decode (stream_read rc2 o2 e2) = inr t2 ->
  aoutcome (secrets path) =
    inr (VDict
           [ ("path", VStr path);
             ("findings",
              VDict [ (if (rc1 =? 0)%Z then "bandit" else "bandit_error",
                       entry_value json_loads rc1 t1);
                      (if (rc2 =? 0)%Z then "trufflehog"
                       else "trufflehog_error",
                       entry_value json_loads rc2 t2) ]) ]) /\
  filter is_exec (aevents (secrets path))
    = [AExec (bandit_argv path); AExec (trufflehog_argv path)] /\
  (forall path' rc o e x,
      run_exec (bandit_argv path') = inr (rc, o, e) ->
      decode (stream_read rc o e) = inl x ->
      aoutcome (secrets path') = inl x /\
      filter is_exec (aevents (secrets path')) = [AExec (bandit_argv path')]).
Proof.
  intros H1 H2 Hd1 Hd2.
  pose proof (discover_adds_one_entry "bandit" _ [] _ _ _ _ H1 Hd1) as E1.
  pose proof (discover_adds_one_entry "trufflehog" _
                [(entry_name "bandit" rc1, entry_value json_loads rc1 t1)]
                _ _ _ _ H2 Hd2) as E2.
  split; [|split].
  - unfold secret_discovery, bandit_argv, trufflehog_argv in *.
    unfold abind at 1 2. unfold atell. rewrite E1. cbn [app].
    unfold abind. rewrite E2. unfold aret, aoutcome. cbn.
    unfold entry_name. destruct (rc1 =? 0)%Z, (rc2 =? 0)%Z; reflexivity.
  - unfold secret_discovery, bandit_argv, trufflehog_argv in *.
    unfold abind at 1 2. unfold atell. rewrite E1. cbn [app].
    unfold abind. rewrite E2. reflexivity.
  - intros path' rc o e x Hr Hx.
    pose proof (discover_raises_on_decode "bandit" _ [] _ _ _ _ Hr Hx) as E.
    unfold secret_discovery, bandit_argv in *.
    unfold abind at 1 2. unfold atell. rewrite E. split; reflexivity.
Qed.

(** X21.  A static analysis ([sast_full] or [sast_lightweight]) runs
    semgrep with the rule set given as language, or [p/ci] when none or an
    empty one is given, on the path; its findings are the lines of what
    semgrep wrote, whatever exit code semgrep ended with. *)
Theorem sast_findings_are_the_output_lines (path : string)
    (language : option string) (a : analysis_type)
    (rc : Z) (out err : bytes) (text : string) :
  a <> dependency_check ->
  run_exec ["semgrep"; "-q"; "-f"; language_or_default language; path]
    = inr (rc, out, err) ->
  decode out = inr text ->
  aoutcome (analyze path language a)
    = inr (VDict [ ("source", VStr path);
                   ("findings", VList (map VStr (splitlines text))) ]) /\
  filter is_exec (aevents (analyze path language a))
    = [AExec ["semgrep"; "-q"; "-f"; language_or_default language; path]] /\
  (language = None \/ language = Some "" ->
   language_or_default language = "p/ci").
Proof.
  intros Ha Hr Hd. split; [|split].
  - unfold analyze_source_code, exec, abind, atell, alift, aret, aoutcome.
    destruct a; try contradiction; cbn; rewrite Hr; cbn; rewrite Hd;
      reflexivity.
  - unfold analyze_source_code, exec, abind, atell, alift, aret, aevents.
    destruct a; try contradiction; cbn; rewrite Hr; cbn; rewrite Hd;
      reflexivity.
  - intros [-> | ->]; reflexivity.
Qed.

(** X22.  A dependency check runs [safety check --json] and nothing else:
    neither the path nor the language it was given reaches the child
    process, so every dependency check asks for the same process. *)
Theorem dependency_check_ignores_the_path (path : string)
    (language : option string) :
  filter is_exec (aevents (analyze path language dependency_check))
    = [AExec ["safety"; "check"; "--json"]] /\
  (forall reply,
      aoutcome (analyze path language dependency_check) = inr reply ->
      exists rc out err text findings,
        run_exec ["safety"; "check"; "--json"] = inr (rc, out, err) /\
        decode out = inr text /\
        json_loads text = inr findings /\
        reply = VDict [ ("source", VStr path); ("findings", findings) ]).
Proof.
  unfold analyze_source_code, exec, abind, atell, alift, aret,
    aevents, aoutcome. cbn.
  destruct (run_exec ["safety"; "check"; "--json"])
    as [e | [[rc out] err]]; cbn.
  - split; [reflexivity | discriminate].
  - destruct (decode out) as [e | text] eqn:Hd; cbn.
    + split; [reflexivity | discriminate].
    + destruct (json_loads text) as [e | findings] eqn:Hj; cbn.
      * split; [reflexivity | discriminate].
      * split; [reflexivity|]. intros reply H. injection H as <-.
        exists rc, out, err, text, findings. repeat split; assumption.
Qed.

End AnalysisMore.

Section AnalysisExamples.
Import PyStr Async Analysis.

Lemma codeql_creation_failure_stops_the_scan_witness :
  aoutcome (codeql_scan (exec_ends_with 2 "" ("no source root" ++ nl))
              decode_ascii (inr (VList [])) "/src" python "db")
    = inl (ToolError ("CodeQL database creation failed: "
                        ++ strip ("no source root" ++ nl))) /\
  filter is_exec
    (aevents (codeql_scan (exec_ends_with 2 "" ("no source root" ++ nl))
                decode_ascii (inr (VList [])) "/src" python "db"))
    = [AExec (codeql_create_argv "/src" python "db")].
Proof.
  apply (codeql_creation_failure_stops_the_scan
           (exec_ends_with 2 "" ("no source root" ++ nl)) decode_ascii
           (inr (VList [])) "/src" "db" python 2 ""
           ("no source root" ++ nl) ("no source root" ++ nl)).
  - reflexivity.
  - discriminate.
  - reflexivity.
Defined.

Lemma codeql_result_needs_both_runs_witness :
  (exists out err,
      exec_ends_with 0 "" "" (codeql_create_argv "/src" python "db")
        = inr (0%Z, out, err)) /\
  (exists out err,
      exec_ends_with 0 "" "" (codeql_analyze_argv "db") = inr (0%Z, out, err)) /\
  (exists results,
      @inr exn value (VList []) = inr results /\
      VDict [ ("database", VStr "db"); ("results", VList []) ]
      = VDict [ ("database", VStr "db"); ("results", results) ]) /\
  filter is_exec
    (aevents (codeql_scan (exec_ends_with 0 "" "") decode_ascii
                (inr (VList [])) "/src" python "db"))
    = [ AExec (codeql_create_argv "/src" python "db");
        AExec (codeql_analyze_argv "db") ].
Proof.
  apply (codeql_result_needs_both_runs (exec_ends_with 0 "" "") decode_ascii
           (inr (VList [])) "/src" "db" python
           (VDict [ ("database", VStr "db"); ("results", VList []) ])).
  reflexivity.
Defined.

Lemma secret_discovery_runs_both_tools_witness :
  aoutcome (secret_discovery (exec_ends_with 1 "" "bandit: issues found")
              decode_ascii loads_rejects "/src") =
    inr (VDict
           [ ("path", VStr "/src");
             ("findings",
              VDict [ ("bandit_error", VStr "bandit: issues found");
                      ("trufflehog_error",
                       VStr "bandit: issues found") ]) ]) /\
  filter is_exec
    (aevents (secret_discovery (exec_ends_with 1 "" "bandit: issues found")
                decode_ascii loads_rejects "/src"))
    = [AExec (bandit_argv "/src"); AExec (trufflehog_argv "/src")] /\
  (forall path' rc o e x,
      exec_ends_with 1 "" "bandit: issues found" (bandit_argv path')
        = inr (rc, o, e) ->
      decode_ascii (stream_read rc o e) = inl x ->
      aoutcome (secret_discovery (exec_ends_with 1 "" "bandit: issues found")
                  decode_ascii loads_rejects path') = inl x /\
      filter is_exec
        (aevents (secret_discovery
                    (exec_ends_with 1 "" "bandit: issues found")
                    decode_ascii loads_rejects path'))
        = [AExec (bandit_argv path')]).
Proof.
  apply (secret_discovery_runs_both_tools
           (exec_ends_with 1 "" "bandit: issues found") decode_ascii
           loads_rejects "/src" 1 1 "" "bandit: issues found"
           "" "bandit: issues found"
           "bandit: issues found" "bandit: issues found");
    reflexivity.
Defined.

Lemma sast_findings_are_the_output_lines_witness :
  aoutcome (analyze_source_code
              (exec_ends_with 1 ("a.py:3: eval" ++ nl ++ "b.py:9: exec") "")
              decode_ascii loads_rejects "/src" None sast_full)
    = inr (VDict
             [ ("source", VStr "/src");
               ("findings",
                VList (map VStr
                         (splitlines
                            ("a.py:3: eval" ++ nl ++ "b.py:9: exec")))) ]) /\
  filter is_exec
    (aevents (analyze_source_code
                (exec_ends_with 1 ("a.py:3: eval" ++ nl ++ "b.py:9: exec") "")
                decode_ascii loads_rejects "/src" None sast_full))
    = [AExec ["semgrep"; "-q"; "-f"; language_or_default None; "/src"]] /\
  (@None string = None \/ None = Some "" ->
   language_or_default None = "p/ci").
Proof.
  apply (sast_findings_are_the_output_lines
           (exec_ends_with 1 ("a.py:3: eval" ++ nl ++ "b.py:9: exec") "")
           decode_ascii loads_rejects "/src" None sast_full 1
           ("a.py:3: eval" ++ nl ++ "b.py:9: exec") ""
           ("a.py:3: eval" ++ nl ++ "b.py:9: exec")).
  - discriminate.
  - reflexivity.
  - reflexivity.
Defined.

End AnalysisExamples.

(** ** Subdomain enumeration *)
Section ReconFacts.
Import PyStr Async Recon.

Variable run_exec : list string -> result (Z * bytes * bytes).
Variable decode : bytes -> result string.
Variable set_order : list string -> list string.

Local Abbreviation enumerate :=
  (subdomain_enumeration run_exec decode set_order).

(** X23.  When amass is not installed the tool does not raise: it
    returns no subdomain and the one error [Amass not installed or not in
    PATH.], and it reports the progress as for a finished enumeration. *)
Theorem missing_amass_is_reported (target_domain m : string) :
  run_exec (amass_argv target_domain) = inl (FileNotFoundError m) ->
  aoutcome (enumerate target_domain)
    = inr (enumeration_reply target_domain []
             ["Amass not installed or not in PATH."]) /\
  In (AProgress "Enumeration complete.") (aevents (enumerate target_domain)).
Proof.
  intros Hr.
  unfold subdomain_enumeration, enumeration_try, abind, atell, aret,
    aoutcome, aevents.
  rewrite Hr. cbn. split; [reflexivity | auto].
Qed.

(** X24.  When amass ends, whatever its exit code, the subdomains
    returned are the lines of its output, each once; the errors are empty
    after exit code zero and otherwise hold the stripped error stream. *)
Theorem enumeration_keeps_the_output_lines (target_domain : string)
    (rc : Z) (out err : bytes) (text etext : string) :
  (forall l, NoDup (set_order l) /\ forall x, In x (set_order l) <-> In x l) ->
  run_exec (amass_argv target_domain) = inr (rc, out, err) ->
  decode out = inr text ->
  decode err = inr etext ->
  exists subdomains,
    aoutcome (enumerate target_domain)
      = inr (enumeration_reply target_domain subdomains
               (if (rc =? 0)%Z then [] else [strip etext])) /\
    NoDup subdomains /\
    (forall x, In x subdomains <-> In x (splitlines text)).
Proof.
  intros Hset Hr Ho He.
  exists (set_order (splitlines text)).
  destruct (Hset (splitlines text)) as [Hnd Hin].
  split; [|split; assumption].
  unfold subdomain_enumeration, enumeration_try, abind, atell, aret,
    aoutcome.
  rewrite Hr. destruct (rc =? 0)%Z; cbn [negb]; rewrite ?He, Ho; reflexivity.
Qed.

End ReconFacts.

(** ** Port scan and directory search *)
Section ScanFacts.
Import PyStr Async Scan.

Variable port_scanner : result unit.
Variable nmap_scan : string -> string -> string -> result scan_data.
Variable run_exec : list string -> result (Z * bytes * bytes).
Variable decode : bytes -> result string.

Local Abbreviation scan := (port_scan port_scanner nmap_scan).
Local Abbreviation bruteforce := (web_directory_bruteforce run_exec decode).

Lemma port_scan_unfold (host : string) (ports : option string)
    (t : scan_type) (v : bool) :
  scan host ports t v =
    match port_scanner with
    | inl e =>
        ([AInfo ("Starting " ++ scan_type_str t ++ " port scan on " ++ host)],
         inl e)
    | inr _ =>
        ([AInfo ("Starting " ++ scan_type_str t ++ " port scan on " ++ host);
          ANmap host (or_default ports "1-1024") (nmap_arguments t v)],
         match nmap_scan host (or_default ports "1-1024")
                 (nmap_arguments t v) with
         | inl e => inl e
         | inr data => inr (VDict [ ("target", VStr host);
                                    ("ports", VList (port_entries data)) ])
         end)
    end.
Proof.
  unfold port_scan, abind, atell, alift, aret.
  assert (Ha : strip (scan_flags t v) = nmap_arguments t v)
    by (destruct t, v; reflexivity).
  rewrite Ha.
  destruct port_scanner as [e | []]; cbn; [reflexivity|].
  destruct (nmap_scan host _ _); reflexivity.
Qed.

(** X25.  A [SYN] scan and a [TCP Connect] scan make the same call of
    nmap and return the same: both pass [-sT], after [-sV] when versions
    are asked for; a [UDP] scan passes [-sU]; the ports are [1-1024] when
    none or an empty text is given. *)
Theorem syn_scan_is_a_connect_scan (host : string) (ports : option string)
    (v : bool) :
  aoutcome (scan host ports SYN v) = aoutcome (scan host ports TCP_Connect v) /\
  filter is_nmap (aevents (scan host ports SYN v))
    = filter is_nmap (aevents (scan host ports TCP_Connect v)) /\
  (forall t hosts' ports' arguments,
      In (ANmap hosts' ports' arguments) (aevents (scan host ports t v)) ->
      hosts' = host /\
      ports' = or_default ports "1-1024" /\
      arguments = nmap_arguments t v) /\
  or_default None "1-1024" = "1-1024" /\
  or_default (Some "") "1-1024" = "1-1024".
Proof.
  rewrite !port_scan_unfold.
  split; [|split; [|split; [|split; reflexivity]]].
  - destruct port_scanner; reflexivity.
  - destruct port_scanner; reflexivity.
  - intros t hosts' ports' arguments. rewrite port_scan_unfold.
    destruct port_scanner as [e | u]; cbn [aevents fst].
    + intros [H | []]. discriminate H.
    + intros [H | [H | []]]; [discriminate H|].
      injection H as <- <- <-. repeat split.
Qed.

Lemma words_from_all_space (s : string) :
  all_space s = true -> words_from s "" = [].
Proof.
  unfold all_space. induction s as [|c s IH]; [reflexivity|].
  cbn [all_chars words_from]. intros H.
  apply andb_true_iff in H as [Hc Hs]. rewrite Hc. cbn. now apply IH.
Qed.

Lemma first_words_blank_line (lines : list string) (line : string) :
  In line lines -> not_empty line = true -> all_space line = true ->
  first_words lines = inl (OtherException "list index out of range").
Proof.
  intros Hin Hne Hsp.
  assert (Hempty : py_split line = [])
    by (apply words_from_all_space; exact Hsp).
  induction lines as [|l rest IH]; [contradiction|].
  cbn [first_words]. destruct Hin as [-> | Hin].
  - unfold not_empty in Hne. apply negb_true_iff in Hne.
    now rewrite Hne, Hempty.
  - destruct (String.eqb l ""); [now apply IH|].
    destruct (py_split l); [reflexivity|].
    now rewrite (IH Hin).
Qed.

(** X26.  When a line of what gobuster wrote is not empty but holds white
    space only, the directory search raises the [IndexError] of taking
    the first word of that line; nothing is returned. *)
Theorem blank_line_breaks_directory_search (base_url : string)
    (w : wordlist_size) (extensions : option string)
    (rc : Z) (out err : bytes) (text line : string) :
  run_exec (gobuster_argv base_url w extensions) = inr (rc, out, err) ->
  decode out = inr text ->
  In line (splitlines text) ->
  not_empty line = true -> all_space line = true ->
  aoutcome (bruteforce base_url w extensions)
    = inl (OtherException "list index out of range").
Proof.
  intros Hr Hd Hin Hne Hsp.
  unfold web_directory_bruteforce, abind, atell, alift, aret, aoutcome.
  rewrite Hr. cbn. rewrite Hd. cbn.
  now rewrite (first_words_blank_line _ line Hin Hne Hsp).
Qed.

Lemma first_words_length (lines paths : list string) :
  first_words lines = inr paths ->
  List.length paths = List.length (filter not_empty lines).
Proof.
  revert paths. induction lines as [|l rest IH]; intros paths H.
  - injection H as <-. reflexivity.
  - cbn [first_words filter] in *. unfold not_empty at 1.
    destruct (String.eqb l ""); cbn [negb]; [now apply IH|].
    destruct (py_split l); [discriminate|].
    destruct (first_words rest) as [e | ws]; [discriminate|].
    injection H as <-. cbn [List.length]. f_equal. now apply IH.
Qed.

(** X27.  What the directory search returns has one path for every line
    of the output that is not empty, whatever exit code gobuster ended
    with. *)
Theorem directory_search_one_path_per_line (base_url : string)
    (w : wordlist_size) (extensions : option string) (reply : value) :
  aoutcome (bruteforce base_url w extensions) = inr reply ->
  exists rc out err text paths,
    run_exec (gobuster_argv base_url w extensions) = inr (rc, out, err) /\
    decode out = inr text /\
    reply = VDict [ ("base_url", VStr base_url);
                    ("discovered_paths", VList (map VStr paths)) ] /\
    List.length paths = List.length (filter not_empty (splitlines text)).
Proof.
  unfold web_directory_bruteforce, abind, atell, alift, aret, aoutcome.
  destruct (run_exec _) as [e | [[rc out] err]]; cbn; [discriminate|].
  destruct (decode out) as [e | text] eqn:Hd; cbn; [discriminate|].
  destruct (first_words (splitlines text)) as [e | paths] eqn:Hf; cbn;
    [discriminate|].
  intros H. injection H as <-.
  exists rc, out, err, text, paths. repeat split; try assumption.
  now apply first_words_length.
Qed.

End ScanFacts.

Section ReconScanExamples.
Import PyStr Async Recon Scan.

Lemma missing_amass_is_reported_witness :
  aoutcome (subdomain_enumeration exec_not_found decode_ascii sample_set_order
              "example.com")
    = inr (enumeration_reply "example.com" []
             ["Amass not installed or not in PATH."]) /\
  In (AProgress "Enumeration complete.")
     (aevents (subdomain_enumeration exec_not_found decode_ascii
                 sample_set_order "example.com")).
Proof.
  apply (missing_amass_is_reported exec_not_found decode_ascii sample_set_order
           "example.com" "[Errno 2] No such file or directory: 'amass'").
  reflexivity.
Defined.

Lemma enumeration_keeps_the_output_lines_witness :
  exists subdomains,
    aoutcome (subdomain_enumeration
                (exec_ends_with 1
                   ("a.example.com" ++ nl ++ "b.example.com" ++ nl
                      ++ "a.example.com" ++ nl)
                   ("rate limited" ++ nl))
                decode_ascii sample_set_order "example.com")
      = inr (enumeration_reply "example.com" subdomains
               (if (1 =? 0)%Z then [] else [strip ("rate limited" ++ nl)])) /\
    NoDup subdomains /\
    (forall x, In x subdomains <->
               In x (splitlines ("a.example.com" ++ nl ++ "b.example.com" ++ nl
                                   ++ "a.example.com" ++ nl))).
Proof.
  apply (enumeration_keeps_the_output_lines
           (exec_ends_with 1
              ("a.example.com" ++ nl ++ "b.example.com" ++ nl
                 ++ "a.example.com" ++ nl)
              ("rate limited" ++ nl))
           decode_ascii sample_set_order "example.com" 1
           ("a.example.com" ++ nl ++ "b.example.com" ++ nl
              ++ "a.example.com" ++ nl)
           ("rate limited" ++ nl)
           ("a.example.com" ++ nl ++ "b.example.com" ++ nl
              ++ "a.example.com" ++ nl)
           ("rate limited" ++ nl)).
  - intros l. split.
    + apply NoDup_nodup.
    + intros x. apply nodup_In.
  - reflexivity.
  - reflexivity.
  - reflexivity.
Defined.

Lemma blank_line_breaks_directory_search_witness :
  aoutcome (web_directory_bruteforce
              (exec_ends_with 0 ("/admin (Status: 200)" ++ nl ++ "  " ++ nl) "")
              decode_ascii "http://example.com" medium None)
    = inl (OtherException "list index out of range").
Proof.
  apply (blank_line_breaks_directory_search
           (exec_ends_with 0 ("/admin (Status: 200)" ++ nl ++ "  " ++ nl) "")
           decode_ascii "http://example.com" medium None 0
           ("/admin (Status: 200)" ++ nl ++ "  " ++ nl) ""
           ("/admin (Status: 200)" ++ nl ++ "  " ++ nl) "  ").
  - reflexivity.
  - reflexivity.
  - right. left. reflexivity.
  - reflexivity.
  - reflexivity.
Defined.

Lemma directory_search_one_path_per_line_witness :
  exists rc out err text paths,
    exec_ends_with 1
      ("/admin (Status: 200)" ++ nl ++ nl ++ "/login (Status: 302)" ++ nl) ""
      (gobuster_argv "http://example.com" small (Some "php"))
      = inr (rc, out, err) /\
    decode_ascii out = inr text /\
    VDict [ ("base_url", VStr "http://example.com");
            ("discovered_paths", VList [VStr "/admin"; VStr "/login"]) ]
    = VDict [ ("base_url", VStr "http://example.com");
              ("discovered_paths", VList (map VStr paths)) ] /\
    List.length paths = List.length (filter not_empty (splitlines text)).
Proof.
  apply (directory_search_one_path_per_line
           (exec_ends_with 1
              ("/admin (Status: 200)" ++ nl ++ nl ++ "/login (Status: 302)"
                 ++ nl) "")
           decode_ascii "http://example.com" small (Some "php")
           (VDict [ ("base_url", VStr "http://example.com");
                    ("discovered_paths",
                     VList [VStr "/admin"; VStr "/login"]) ])).
  reflexivity.
Defined.

End ReconScanExamples.
